(** * Mag7-7DTE decision pipeline: sizing, exits, ensemble and earnings signals

  A shallow embedding of
  - [backend/app/services/risk_management_service_updated.py]
  - [backend/app/services/signal_strategies/ensemble_strategy.py]
  - [backend/app/services/signal_strategies/fundamental_strategies.py]

  Python [float]s are embedded as exact rationals ([Q]): every comparison,
  [max], [min], [math.ceil] and [int] below is the source's operation read
  over the rationals, so rounding, infinities and NaN are outside the model.
  Database queries are read over tables held as lists; [try]/[except]
  blocks become explicit error results. *)

From Stdlib Require Import QArith Qround Qabs ZArith List String Bool Lia Lqa.
Import ListNotations.
Open Scope Q_scope.

(** ** Python primitives used by the services *)

Module Py.

(** [x < y] and [x <= y] on floats, as booleans. *)
Definition ltb (x y : Q) : bool := negb (Qle_bool y x).
Definition leb (x y : Q) : bool := Qle_bool x y.

(** [max(a, b)]: the first argument unless the second is strictly larger. *)
Definition max (a b : Q) : Q := if ltb a b then b else a.

(** [min(a, b)]: the first argument unless the second is strictly smaller. *)
Definition min (a b : Q) : Q := if ltb b a then b else a.

(** [math.ceil]. *)
Definition ceil (x : Q) : Z := Qceiling x.

(** [int(x)] on a float: truncation toward zero. *)
Definition int (x : Q) : Z := if leb 0 x then Qfloor x else Qceiling x.

(** [sum(xs)]: left-to-right accumulation from [0]. *)
Definition sum (xs : list Q) : Q := fold_left Qplus xs 0.

(** [len(xs)] as a float denominator. *)
Definition len {A} (xs : list A) : Q := inject_Z (Z.of_nat (List.length xs)).

(** Truthiness of an optional float: [None] and [0.0] are falsy. *)
Definition truthy (x : option Q) : bool :=
  match x with
  | None => false
  | Some v => negb (Qeq_bool v 0)
  end.

End Py.

(** ** Risk management service *)

Module RiskManagementService.

(** *** Rows read by the service (attributes as the service reads them) *)

Record RiskProfile := {
  max_portfolio_risk : Q;
  max_stock_allocation : Q
}.

Record User := {
  user_id : Z;
  risk_profile : option RiskProfile
}.

Record Portfolio := {
  portfolio_id : Z;
  portfolio_user_id : Z;
  total_value : Q
}.

Record Instrument := {
  instrument_id : Z;
  symbol : string
}.

Record Position := {
  position_id : Z;
  position_portfolio_id : Z;
  position_instrument_id : Z;
  status : string;
  current_value : Q;
  entry_price : Q;
  current_price : Q;
  stop_loss_price : option Q;
  quantity : Z
}.

Record FundamentalData := {
  fd_instrument_id : Z;
  fd_date : Z;
  earnings_surprise_pct : Q;
  analyst_rating_buy : Q;
  analyst_rating_sell : Q;
  pe_ratio : Q;
  sector_avg_pe : Q
}.

(** [class PartialProfitTaking]. *)
Record PartialProfitTaking := {
  ppt_position_id : Z;
  percentage_closed : Q;
  price : Q;
  profit_percentage : Q;
  timestamp : Z
}.

(** The frame returned by [calculate_correlation_matrix]: its labels (index
    and columns coincide) and the [.loc] accessor. The source fills it with
    simulated values, so the values are left to the caller here. *)
Record CorrelationMatrix := {
  labels : list string;
  loc : string -> string -> Q
}.

(** The session [self.db], with the clock used for new ledger rows. *)
Record Db := {
  users : list User;
  portfolios : list Portfolio;
  instruments : list Instrument;
  positions : list Position;
  fundamental_data : list FundamentalData;
  partial_profit_takings : list PartialProfitTaking;
  correlation_matrix : option CorrelationMatrix;
  utcnow : Z
}.

(** *** Queries *)

Definition query_user (db : Db) (uid : Z) : option User :=
  find (fun u => Z.eqb (user_id u) uid) (users db).

Definition query_portfolio (db : Db) (uid : Z) : option Portfolio :=
  find (fun p => Z.eqb (portfolio_user_id p) uid) (portfolios db).

Definition query_instrument (db : Db) (iid : Z) : option Instrument :=
  find (fun i => Z.eqb (instrument_id i) iid) (instruments db).

Definition query_position (db : Db) (pid : Z) : option Position :=
  find (fun p => Z.eqb (position_id p) pid) (positions db).

Definition is_active (p : Position) : bool := String.eqb (status p) "ACTIVE".

(** Active positions of a portfolio in one instrument. *)
Definition current_positions (db : Db) (pfid iid : Z) : list Position :=
  filter (fun p => Z.eqb (position_portfolio_id p) pfid
                   && Z.eqb (position_instrument_id p) iid
                   && is_active p) (positions db).

(** All active positions of a portfolio. *)
Definition active_positions (db : Db) (pfid : Z) : list Position :=
  filter (fun p => Z.eqb (position_portfolio_id p) pfid && is_active p)
         (positions db).

(** [order_by(FundamentalData.date.desc()).first()] among an instrument's
    rows. *)
Definition latest_fundamental (db : Db) (iid : Z) : option FundamentalData :=
  fold_left
    (fun best fd =>
       if Z.eqb (fd_instrument_id fd) iid then
         match best with
         | None => Some fd
         | Some b => if Z.ltb (fd_date b) (fd_date fd) then Some fd else best
         end
       else best)
    (fundamental_data db) None.

Definition profit_taking_history (db : Db) (pid : Z) : list PartialProfitTaking :=
  filter (fun e => Z.eqb (ppt_position_id e) pid) (partial_profit_takings db).

(** *** [calculate_fundamental_adjustment] *)

Definition calculate_fundamental_adjustment
           (db : Db) (iid : Z) (signal_confidence : Q) : Q :=
  match query_instrument db iid with
  | None => 1
  | Some _ =>
    match latest_fundamental db iid with
    | None => 1
    | Some fd =>
      let fundamental_score := 0.5 in
      let fundamental_score :=
        if Py.ltb 10 (earnings_surprise_pct fd) then fundamental_score + 0.2
        else if Py.ltb 5 (earnings_surprise_pct fd) then fundamental_score + 0.1
        else if Py.ltb (earnings_surprise_pct fd) (-10) then fundamental_score - 0.2
        else if Py.ltb (earnings_surprise_pct fd) (-5) then fundamental_score - 0.1
        else fundamental_score in
      let fundamental_score :=
        if Py.ltb 70 (analyst_rating_buy fd) then fundamental_score + 0.1
        else if Py.ltb 50 (analyst_rating_sell fd) then fundamental_score - 0.1
        else fundamental_score in
      let fundamental_score :=
        if Py.ltb (pe_ratio fd) (sector_avg_pe fd * 0.7) then fundamental_score + 0.1
        else if Py.ltb (sector_avg_pe fd * 1.5) (pe_ratio fd) then fundamental_score - 0.1
        else fundamental_score in
      let fundamental_score := Py.max 0 (Py.min 1 fundamental_score) in
      let adjustment_factor := 0.5 + fundamental_score in
      let combined_factor := (adjustment_factor + signal_confidence) / 2 in
      let scaling_factor := 1 + combined_factor in
      scaling_factor
    end
  end.

(** *** [calculate_correlation_adjustment] *)

Definition in_labels (s : string) (m : CorrelationMatrix) : bool :=
  existsb (String.eqb s) (labels m).

Definition calculate_correlation_adjustment (db : Db) (iid pfid : Z) : Q :=
  match active_positions db pfid with
  | [] => 1
  | active =>
    match correlation_matrix db with
    | None => 0.8
    | Some m =>
      match query_instrument db iid with
      | None => 0.8
      | Some instrument =>
        let correlations :=
          flat_map
            (fun position =>
               match query_instrument db (position_instrument_id position) with
               | Some position_instrument =>
                 if in_labels (symbol position_instrument) m
                    && in_labels (symbol instrument) m
                 then [Qabs (loc m (symbol position_instrument) (symbol instrument))]
                 else []
               | None => []
               end)
            active in
        match correlations with
        | [] => 1
        | _ =>
          let avg_correlation := Py.sum correlations / Py.len correlations in
          if Py.ltb 0.8 avg_correlation then 0.5
          else if Py.ltb 0.6 avg_correlation then 0.75
          else if Py.ltb avg_correlation 0.3 then 1.2
          else 1
        end
      end
    end
  end.

(** *** [calculate_position_size] *)

(** The error dictionaries ([contracts], [max_capital] and [risk_per_trade]
    all [0], plus a message). [InternalError] is the [except Exception]
    branch; the only exception the arithmetic can raise on rationals is the
    division by a zero [contract_value]. *)
Inductive SizingError :=
| UserNotFound
| PortfolioNotFound
| InstrumentNotFound
| MaximumAllocationReached (symbol : string)
| InternalError.

(** The success dictionary. *)
Record Sizing := {
  contracts : Z;
  min_contracts : Z;
  max_contracts : Z;
  position_value : Q;
  min_position_size : Q;
  max_capital : Q;
  risk_per_trade : Q;
  contract_value : Q;
  portfolio_value : Q;
  current_allocation : Q;
  available_allocation : Q;
  confidence_multiplier : Q;
  max_scaling : Q;
  fundamental_adjustment : Q;
  correlation_adjustment : Q;
  combined_adjustment : Q
}.

Inductive SizingResult :=
| SizingFailed (e : SizingError)
| SizingOk (r : Sizing).

(** The ["contracts"] entry of either dictionary. *)
Definition result_contracts (res : SizingResult) : Z :=
  match res with
  | SizingFailed _ => 0%Z
  | SizingOk r => contracts r
  end.

Definition calculate_position_size
           (db : Db) (user_id instrument_id : Z)
           (signal_confidence option_price : Q) : SizingResult :=
  match query_user db user_id with
  | None => SizingFailed UserNotFound
  | Some user =>
  match risk_profile user with
  | None => SizingFailed UserNotFound
  | Some profile =>
  match query_portfolio db user_id with
  | None => SizingFailed PortfolioNotFound
  | Some portfolio =>
  match query_instrument db instrument_id with
  | None => SizingFailed InstrumentNotFound
  | Some instrument =>
    let max_portfolio_risk := max_portfolio_risk profile in
    let portfolio_value := total_value portfolio in
    let risk_per_trade := portfolio_value * (max_portfolio_risk / 100) in
    let confidence_multiplier := 0.5 + signal_confidence in
    let adjusted_risk := risk_per_trade * confidence_multiplier in
    let max_capital := adjusted_risk in
    let min_position_size := Py.max 33000 (portfolio_value * 0.33) in
    let contract_value := option_price * 100 in
    if Qeq_bool contract_value 0 then SizingFailed InternalError else
    let min_contracts := Py.ceil (min_position_size / contract_value) in
    let max_scaling :=
      if Py.leb 0.9 signal_confidence then 2
      else if Py.leb 0.8 signal_confidence then 1.5
      else if Py.leb 0.7 signal_confidence then 1.25
      else 1 in
    let scaled_contracts :=
      Z.min (Py.int (inject_Z min_contracts * max_scaling))
            (Py.int (max_capital / contract_value)) in
    let contracts := Z.max min_contracts scaled_contracts in
    let max_stock_allocation := max_stock_allocation profile in
    let max_stock_capital := portfolio_value * (max_stock_allocation / 100) in
    let current_positions :=
      current_positions db (portfolio_id portfolio) instrument_id in
    let current_allocation := Py.sum (map current_value current_positions) in
    let available_allocation := max_stock_capital - current_allocation in
    if Py.leb available_allocation 0
    then SizingFailed (MaximumAllocationReached (symbol instrument)) else
    let position_value := inject_Z contracts * contract_value in
    let '(contracts, position_value) :=
      if Py.ltb available_allocation position_value then
        let contracts := Py.int (available_allocation / contract_value) in
        (contracts, inject_Z contracts * contract_value)
      else (contracts, position_value) in
    let '(contracts, position_value) :=
      if Py.ltb position_value min_position_size
         && Py.leb min_position_size available_allocation then
        let contracts := Py.ceil (min_position_size / contract_value) in
        (contracts, inject_Z contracts * contract_value)
      else (contracts, position_value) in
    let fundamental_adjustment :=
      calculate_fundamental_adjustment db instrument_id signal_confidence in
    let correlation_adjustment :=
      calculate_correlation_adjustment db instrument_id (portfolio_id portfolio) in
    let combined_adjustment := fundamental_adjustment * correlation_adjustment in
    let adjusted_contracts :=
      Py.int (inject_Z contracts * combined_adjustment) in
    let final_contracts := Z.max min_contracts adjusted_contracts in
    let final_position_value := inject_Z final_contracts * contract_value in
    SizingOk {|
      contracts := final_contracts;
      min_contracts := min_contracts;
      max_contracts := scaled_contracts;
      position_value := final_position_value;
      min_position_size := min_position_size;
      max_capital := max_capital;
      risk_per_trade := adjusted_risk;
      contract_value := contract_value;
      portfolio_value := portfolio_value;
      current_allocation := current_allocation;
      available_allocation := available_allocation;
      confidence_multiplier := confidence_multiplier;
      max_scaling := max_scaling;
      fundamental_adjustment := fundamental_adjustment;
      correlation_adjustment := correlation_adjustment;
      combined_adjustment := combined_adjustment
    |}
  end end end end.

(** The allocation headroom and the minimum position floor the sizing rules
    are phrased with, for a risk profile, a portfolio and an instrument. *)
Definition headroom_of (db : Db) (profile : RiskProfile)
           (portfolio : Portfolio) (instrument_id : Z) : Q :=
  total_value portfolio * (max_stock_allocation profile / 100)
  - Py.sum (map current_value
                (current_positions db (portfolio_id portfolio) instrument_id)).

Definition floor_of (portfolio : Portfolio) : Q :=
  Py.max 33000 (total_value portfolio * 0.33).

(** *** [calculate_dynamic_take_profit] *)

Record DynamicTakeProfit := {
  dtp_position_id : Z;
  dtp_entry_price : Q;
  dtp_current_price : Q;
  dtp_current_profit_pct : Q;
  initial_stop_loss : Q;
  adjusted_stop_loss : Q;
  take_profit_price : Q;
  risk_reward_ratio : Q;
  initial_risk : Q
}.

(** [None] is the [{"error": "Position not found"}] dictionary. *)
Definition calculate_dynamic_take_profit
           (db : Db) (position_id : Z) (current_profit_pct : Q)
  : option DynamicTakeProfit :=
  match query_position db position_id with
  | None => None
  | Some position =>
    let initial_stop_loss :=
      match stop_loss_price position with
      | Some v => if Py.truthy (Some v) then v else entry_price position * 0.8
      | None => entry_price position * 0.8
      end in
    let initial_risk := Qabs (entry_price position - initial_stop_loss) in
    let risk_reward_ratio :=
      if Py.ltb current_profit_pct 0.15 then 1.5
      else if Py.ltb current_profit_pct 0.30 then 2
      else 3 in
    let take_profit_price :=
      entry_price position + initial_risk * risk_reward_ratio in
    let trailing_stop :=
      if Py.ltb 0.30 current_profit_pct then
        entry_price position
        + (current_price position - entry_price position) * 0.5
      else if Py.ltb 0.15 current_profit_pct then
        entry_price position
        + (current_price position - entry_price position) * 0.25
      else initial_stop_loss in
    let adjusted_stop_loss := Py.max initial_stop_loss trailing_stop in
    Some {|
      dtp_position_id := position_id;
      dtp_entry_price := entry_price position;
      dtp_current_price := current_price position;
      dtp_current_profit_pct := current_profit_pct;
      initial_stop_loss := initial_stop_loss;
      adjusted_stop_loss := adjusted_stop_loss;
      take_profit_price := take_profit_price;
      risk_reward_ratio := risk_reward_ratio;
      initial_risk := initial_risk
    |}
  end.


(** *** [implement_partial_profit_taking] *)

Record Threshold := {
  profit_pct : Q;
  take_pct : Q
}.

Definition thresholds : list Threshold :=
  [ {| profit_pct := 0.20; take_pct := 0.25 |};
    {| profit_pct := 0.35; take_pct := 0.25 |};
    {| profit_pct := 0.50; take_pct := 0.25 |} ].

(** [sum(t["take_pct"] for t in thresholds
         if t["profit_pct"] <= threshold["profit_pct"])]. *)
Definition target_total (threshold : Threshold) : Q :=
  Py.sum (map take_pct
              (filter (fun t => Py.leb (profit_pct t) (profit_pct threshold))
                      thresholds)).

Record PartialClose := {
  pc_position_id : Z;
  percentage_to_close : Q;
  contracts_to_close : Z;
  pc_profit_percentage : Q;
  threshold_triggered : Q;
  pc_total_percentage_closed : Q
}.

Inductive ProfitTakingResult :=
| ProfitTakingError
| ActionPartialClose (r : PartialClose)
| ActionHold (position_id : Z) (profit_percentage total_percentage_closed : Q).

(** [self.db.add(new_profit_taking); self.db.commit()]. *)
Definition db_add (db : Db) (e : PartialProfitTaking) : Db :=
  {| users := users db;
     portfolios := portfolios db;
     instruments := instruments db;
     positions := positions db;
     fundamental_data := fundamental_data db;
     partial_profit_takings := partial_profit_takings db ++ [e];
     correlation_matrix := correlation_matrix db;
     utcnow := utcnow db |}.

(** [sum(ppt.percentage_closed for ppt in profit_taking_history)]. *)
Definition total_pct_taken (db : Db) (position_id : Z) : Q :=
  Py.sum (map percentage_closed (profit_taking_history db position_id)).

(** The [for threshold in thresholds] loop, over the thresholds still to
    visit; it returns from the first threshold that releases something. *)
Fixpoint ladder (db : Db) (position : Position) (position_id : Z)
         (current_profit_pct total_pct_taken : Q) (todo : list Threshold)
  : ProfitTakingResult * Db :=
  match todo with
  | [] => (ActionHold position_id current_profit_pct total_pct_taken, db)
  | threshold :: rest =>
    if Py.leb (profit_pct threshold) current_profit_pct
       && Py.ltb total_pct_taken (target_total threshold) then
      let target_total_pct := target_total threshold in
      let pct_to_take_now := target_total_pct - total_pct_taken in
      let pct_to_take_now := Py.min pct_to_take_now (1 - total_pct_taken) in
      if Py.ltb 0 pct_to_take_now then
        let new_profit_taking :=
          {| ppt_position_id := position_id;
             percentage_closed := pct_to_take_now;
             price := current_price position;
             profit_percentage := current_profit_pct;
             timestamp := utcnow db |} in
        (ActionPartialClose
           {| pc_position_id := position_id;
              percentage_to_close := pct_to_take_now;
              contracts_to_close :=
                Py.int (inject_Z (quantity position) * pct_to_take_now);
              pc_profit_percentage := current_profit_pct;
              threshold_triggered := profit_pct threshold;
              pc_total_percentage_closed := total_pct_taken + pct_to_take_now |},
         db_add db new_profit_taking)
      else ladder db position position_id current_profit_pct total_pct_taken rest
    else ladder db position position_id current_profit_pct total_pct_taken rest
  end.

Definition implement_partial_profit_taking
           (db : Db) (position_id : Z) (current_profit_pct : Q)
  : ProfitTakingResult * Db :=
  match query_position db position_id with
  | None => (ProfitTakingError, db)
  | Some position =>
    let total_pct_taken := total_pct_taken db position_id in
    ladder db position position_id current_profit_pct total_pct_taken thresholds
  end.

(** A sequence of calls [(position_id, current_profit_pct)] threaded through
    the session. *)
Definition run_profit_taking (db : Db) (calls : list (Z * Q)) : Db :=
  fold_left (fun db c => snd (implement_partial_profit_taking db (fst c) (snd c)))
            calls db.

(** Every ladder threshold reached at [current_profit_pct] has had its
    cumulative target released already. *)
Definition all_released (total_pct_taken current_profit_pct : Q) : Prop :=
  forall t, In t thresholds ->
            profit_pct t <= current_profit_pct ->
            target_total t <= total_pct_taken.

End RiskManagementService.

(** ** Signals, options and the session the strategies share *)

Module Market.

(** [SignalType], [SignalSource] and [SignalStatus] of [app.models.signal]. *)
Inductive SignalType :=
| LONG_CALL | LONG_PUT | SHORT_CALL | SHORT_PUT | CALL_SPREAD | PUT_SPREAD
| IRON_CONDOR | BUTTERFLY | CALENDAR_SPREAD | DIAGONAL_SPREAD.

Inductive SignalSource :=
| TECHNICAL | FUNDAMENTAL | VOLATILITY | MOMENTUM | EARNINGS | SENTIMENT
| CORRELATION | ENSEMBLE.

Inductive SignalStatus := PENDING | ACTIVE | EXECUTED | EXPIRED | CANCELLED.

Inductive OptionType := call | put.

Definition option_type_eqb (a b : OptionType) : bool :=
  match a, b with
  | call, call | put, put => true
  | _, _ => false
  end.

(** Datetimes are seconds since an epoch; [date_of] is [.date()] as a day
    number and [midnight] the datetime a date is compared as. *)
Definition date_of (t : Z) : Z := (t / 86400)%Z.
Definition midnight (d : Z) : Z := (d * 86400)%Z.

Record Instrument := {
  id : Z;
  symbol : string;
  last_price : option Q;
  (** [earnings_schedule["next_date"]] parsed by [datetime.fromisoformat];
      [None] when the schedule, the key or a valid date is missing. *)
  next_date : option Z
}.

Record Option_ := {
  opt_id : Z;
  opt_instrument_id : Z;
  expiration_date : Z;
  strike_price : Q;
  option_type : OptionType
}.

Record EarningsData := {
  ed_instrument_id : Z;
  earnings_date : Z;
  eps_estimate : option Q;
  eps_actual : option Q;
  surprise_percentage : option Q
}.

(** The ["parameters"] entry of a signal, by producing strategy. *)
Inductive Parameters :=
| EnsembleParameters (indicator : string) (strategies : list string)
                     (strategy_count : Z) (confidence : Q)
| EarningsParameters (days_until_earnings : Z) (surprise_trend : Q)
                     (historical_surprises : list (Z * Q))
| EarningsSurpriseParameters (days_after_earnings : Z) (surprise : Q)
                             (eps_actual eps_estimate : option Q)
| OtherParameters.

(** The [signal_data] dictionary (the formatted [notes] text is left out). *)
Record SignalData := {
  instrument_id : Z;
  signal_type : SignalType;
  signal_source : SignalSource;
  status : SignalStatus;
  entry_price : option Q;
  target_price : option Q;
  stop_loss : option Q;
  confidence_score : Q;
  time_frame : string;
  option_id : Z;
  option_strike : Q;
  option_expiration : Z;
  parameters : Parameters
}.

(** A persisted [Signal] row: the data and the key the commit assigned. *)
Record Signal := {
  signal_id : Z;
  data : SignalData
}.

(** The session [self.db] as the strategies use it: the option and earnings
    tables, the clock, and [commit], the outcome of
    [db.add; db.commit; db.refresh] on a new signal ([None] when it raises). *)
Record Session := {
  options : list Option_;
  earnings : list EarningsData;
  utcnow : Z;
  commit : SignalData -> option Z
}.

(** [min(xs, key=...)]: the first element with the smallest key. *)
Fixpoint argmin {A} (key : A -> Q) (best : A) (xs : list A) : A :=
  match xs with
  | [] => best
  | x :: rest => argmin key (if Py.ltb (key x) (key best) then x else best) rest
  end.

(** [find_atm_options], the same body in [FundamentalStrategy] and in
    [EnsembleStrategy]. *)
Definition find_atm_options (db : Session) (instrument_id : Z)
           (current_price : Q) (option_type_ : OptionType)
           (days_to_expiration : Z) : option Option_ :=
  let target_date := (date_of (utcnow db) + days_to_expiration)%Z in
  let min_date := (target_date - 2)%Z in
  let max_date := (target_date + 2)%Z in
  let options :=
    filter (fun o => Z.eqb (opt_instrument_id o) instrument_id
                     && Z.leb (midnight min_date) (expiration_date o)
                     && Z.leb (expiration_date o) (midnight max_date)
                     && option_type_eqb (option_type o) option_type_)
           (options db) in
  match options with
  | [] => None
  | o :: rest =>
    Some (argmin (fun x => Qabs (strike_price x - current_price)) o rest)
  end.

(** [save_signal]: a failed commit is rolled back and yields [None]. *)
Definition save_signal (db : Session) (signal_data : SignalData) : option Signal :=
  match commit db signal_data with
  | Some k => Some {| signal_id := k; data := signal_data |}
  | None => None
  end.

(** Truthiness of [instrument.last_price]. *)
Definition current_price_of (instrument : Instrument) : option Q :=
  match last_price instrument with
  | Some p => if Py.truthy (Some p) then Some p else None
  | None => None
  end.

End Market.

(** ** Ensemble strategies *)

Module EnsembleStrategy.
Import Market.

(** What calling one constituent's [generate_signals] does. *)
Inductive Outcome :=
| Raises
| Returns (signals : list Signal).

Definition Strategy := Instrument -> Outcome.

(** [self]: the session, the two thresholds and the [strategies] dictionary
    in insertion order. *)
Record t := {
  db : Session;
  min_confidence : Q;
  min_strategies : Z;
  strategies : list (string * Strategy)
}.

(** [d[k] = v] on an insertion-ordered dictionary. *)
Fixpoint dict_set {V} (d : list (string * V)) (k : string) (v : V)
  : list (string * V) :=
  match d with
  | [] => [(k, v)]
  | (k', v') :: rest =>
    if String.eqb k' k then (k', v) :: rest else (k', v') :: dict_set rest k v
  end.

(** The first loop: every strategy is called inside its own [try]; a raise is
    logged and skipped, an empty list is not stored. *)
Definition collect_signals (self : t) (instrument : Instrument)
  : list (string * list Signal) :=
  fold_left
    (fun strategy_signals entry =>
       match snd entry instrument with
       | Returns [] => strategy_signals
       | Returns signals => dict_set strategy_signals (fst entry) signals
       | Raises => strategy_signals
       end)
    (strategies self) [].

(** The second loop: [(call_signals, put_signals)]. *)
Definition group_signals (strategy_signals : list (string * list Signal))
  : list (string * Signal) * list (string * Signal) :=
  fold_left
    (fun acc entry =>
       fold_left
         (fun acc signal =>
            match signal_type (data signal) with
            | LONG_CALL => (fst acc ++ [(fst entry, signal)], snd acc)
            | LONG_PUT => (fst acc, snd acc ++ [(fst entry, signal)])
            | _ => acc
            end)
         (snd entry) acc)
    strategy_signals ([], []).

Definition confidences (signals : list (string * Signal)) : list Q :=
  map (fun e => confidence_score (data (snd e))) signals.

(** [sum(s.confidence_score for _, s in signals) / len(signals)]; [None]
    is the [ZeroDivisionError] of an empty bucket. *)
Definition average_confidence (signals : list (string * Signal)) : option Q :=
  match signals with
  | [] => None
  | _ => Some (Py.sum (confidences signals) / Py.len signals)
  end.

(** [sum(xs) / len(xs) if xs else fallback]. *)
Definition mean_or (xs : list Q) (fallback : Q) : Q :=
  match xs with
  | [] => fallback
  | _ => Py.sum xs / Py.len xs
  end.

Definition present (xs : list (option Q)) : list Q :=
  flat_map (fun x => match x with Some v => [v] | None => [] end) xs.

(** How one directional block ends: by [return all_signals] (also the way
    the enclosing [except] leaves), or by falling through. *)
Inductive Flow :=
| Return (all_signals : list Signal)
| Continue (all_signals : list Signal).

(** One directional block of [generate_signals]. [combine] is the combined
    confidence of the bucket ([None] when computing it raises) and
    [indicator] the tag stored in the parameters; the call and the put block
    differ in the signal type, the option type and the fallback factors. *)
Definition bucket (self : t) (combine : list (string * Signal) -> option Q)
           (indicator : string) (instrument : Instrument) (current_price : Q)
           (type_ : SignalType) (option_type_ : OptionType)
           (target_factor stop_factor : Q)
           (signals : list (string * Signal)) (all_signals : list Signal)
  : Flow :=
  if Z.leb (min_strategies self) (Z.of_nat (List.length signals)) then
    match combine signals with
    | None => Return all_signals
    | Some confidence =>
      if Py.leb (min_confidence self) confidence then
        match find_atm_options (db self) (id instrument) current_price
                               option_type_ 7 with
        | None => Return all_signals
        | Some atm =>
          let target_prices :=
            present (map (fun e => target_price (data (snd e))) signals) in
          let stop_losses :=
            present (map (fun e => stop_loss (data (snd e))) signals) in
          let target_price := mean_or target_prices (current_price * target_factor) in
          let stop_loss := mean_or stop_losses (current_price * stop_factor) in
          let signal_data := {|
            instrument_id := id instrument;
            signal_type := type_;
            signal_source := ENSEMBLE;
            status := PENDING;
            entry_price := None;
            target_price := Some target_price;
            stop_loss := Some stop_loss;
            confidence_score := confidence;
            time_frame := "7d";
            option_id := opt_id atm;
            option_strike := strike_price atm;
            option_expiration := expiration_date atm;
            parameters :=
              EnsembleParameters indicator (map fst signals)
                                 (Z.of_nat (List.length signals)) confidence
          |} in
          match save_signal (db self) signal_data with
          | Some signal => Continue (all_signals ++ [signal])
          | None => Continue all_signals
          end
        end
      else Continue all_signals
    end
  else Continue all_signals.

(** The body shared by [EnsembleStrategy.generate_signals] and
    [WeightedEnsembleStrategy.generate_signals]. *)
Definition cycle (self : t) (combine : list (string * Signal) -> option Q)
           (indicator : string) (instrument : Instrument) : list Signal :=
  let all_signals := [] in
  match current_price_of instrument with
  | None => all_signals
  | Some current_price =>
    let strategy_signals := collect_signals self instrument in
    let call_signals := fst (group_signals strategy_signals) in
    let put_signals := snd (group_signals strategy_signals) in
    match bucket self combine indicator instrument current_price
                 LONG_CALL call 1.05 0.97 call_signals all_signals with
    | Return all_signals => all_signals
    | Continue all_signals =>
      match bucket self combine indicator instrument current_price
                   LONG_PUT put 0.95 1.03 put_signals all_signals with
      | Return all_signals => all_signals
      | Continue all_signals => all_signals
      end
    end
  end.

Definition generate_signals (self : t) (instrument : Instrument) : list Signal :=
  cycle self average_confidence "ensemble" instrument.

(** The call and put buckets of a cycle. *)
Definition call_signals (self : t) (instrument : Instrument) :=
  fst (group_signals (collect_signals self instrument)).
Definition put_signals (self : t) (instrument : Instrument) :=
  snd (group_signals (collect_signals self instrument)).

(** The same ensemble over another [strategies] dictionary. *)
Definition with_strategies (self : t) (entries : list (string * Strategy)) : t :=
  {| db := db self;
     min_confidence := min_confidence self;
     min_strategies := min_strategies self;
     strategies := entries |}.


(** The list a directional block leaves, however it ends. *)
Definition signals_of (f : Flow) : list Signal :=
  match f with
  | Return all_signals => all_signals
  | Continue all_signals => all_signals
  end.

(** What a directional block can add: nothing, or one signal of its own
    direction, whose bucket met the quorum and whose confidence is the
    combined confidence of the bucket, at least [min_confidence]. *)
Definition emitted (self : t) (combine : list (string * Signal) -> option Q)
           (type_ : SignalType) (signals : list (string * Signal))
           (s : Signal) : Prop :=
  signal_type (data s) = type_ /\
  signal_source (data s) = ENSEMBLE /\
  (min_strategies self <= Z.of_nat (List.length signals))%Z /\
  combine signals = Some (confidence_score (data s)) /\
  min_confidence self <= confidence_score (data s).


End EnsembleStrategy.

Module WeightedEnsembleStrategy.
Import Market EnsembleStrategy.

Definition strategy_weights : list (string * Q) :=
  [ ("rsi", 0.7); ("macd", 0.8); ("bollinger", 0.6); ("momentum", 0.7);
    ("earnings", 0.9); ("valuation", 0.8); ("analyst", 0.7);
    ("iv_percentile", 0.8); ("iv_skew", 0.7); ("vol_surface", 0.6) ]%string.

(** [self.source_weights.get(source, 0.5)]. *)
Definition source_weight (source : SignalSource) : Q :=
  match source with
  | TECHNICAL => 0.7
  | FUNDAMENTAL => 0.9
  | VOLATILITY => 0.8
  | MOMENTUM => 0.7
  | ENSEMBLE => 0
  | _ => 0.5
  end.

(** [self.strategy_weights.get(name, 0.5)]. *)
Definition strategy_weight (name : string) : Q :=
  match find (fun e => String.eqb (fst e) name) strategy_weights with
  | Some e => snd e
  | None => 0.5
  end.

Definition combined_weight (entry : string * Signal) : Q :=
  (strategy_weight (fst entry) + source_weight (signal_source (data (snd entry)))) / 2.

(** The accumulation loop: [(total_weight, weighted_sum)]. *)
Definition accumulate (signals : list (string * Signal)) : Q * Q :=
  fold_left
    (fun acc entry =>
       (fst acc + combined_weight entry,
        snd acc + confidence_score (data (snd entry)) * combined_weight entry))
    signals (0, 0).

Definition calculate_weighted_confidence (signals : list (string * Signal)) : Q :=
  match signals with
  | [] => 0
  | _ =>
    let total_weight := fst (accumulate signals) in
    let weighted_sum := snd (accumulate signals) in
    if Py.ltb 0 total_weight then weighted_sum / total_weight else 0
  end.

Definition generate_signals (self : t) (instrument : Instrument) : list Signal :=
  cycle self (fun signals => Some (calculate_weighted_confidence signals))
        "weighted_ensemble" instrument.

End WeightedEnsembleStrategy.

(** ** Earnings strategy *)

Module EarningsStrategy.
Import Market.

Record t := {
  db : Session;
  days_before : Z;
  days_after : Z
}.

(** [EarningsStrategy(db)] with the default windows. *)
Definition make (db : Session) : t :=
  {| db := db; days_before := 5; days_after := 2 |}.

Definition get_upcoming_earnings (instrument : Instrument) : option Z :=
  next_date instrument.

(** A stable ascending sort on an integer key ([sorted(xs, key=...)]). *)
Fixpoint insert_by {A} (key : A -> Z) (x : A) (xs : list A) : list A :=
  match xs with
  | [] => [x]
  | y :: rest =>
    if Z.leb (key x) (key y) then x :: y :: rest
    else y :: insert_by key x rest
  end.

Definition sort_by {A} (key : A -> Z) (xs : list A) : list A :=
  fold_right (insert_by key) [] xs.

(** [order_by(EarningsData.earnings_date.desc()).limit(limit).all()]. *)
Definition get_historical_earnings_surprises
           (self : t) (instrument : Instrument) (limit : nat)
  : list EarningsData :=
  firstn limit
         (sort_by (fun e => (- earnings_date e)%Z)
                  (filter (fun e => Z.eqb (ed_instrument_id e) (id instrument))
                          (earnings (db self)))).

Definition surprises_of (earnings_data : list EarningsData) : list Q :=
  flat_map (fun e => match surprise_percentage e with
                     | Some v => [v]
                     | None => []
                     end) earnings_data.

Definition calculate_earnings_surprise_trend
           (earnings_data : list EarningsData) : Q :=
  if Nat.ltb (List.length earnings_data) 2 then 0 else
  let sorted_data := sort_by earnings_date earnings_data in
  let surprises := surprises_of sorted_data in
  if Nat.ltb (List.length surprises) 2 then 0 else
  let most_recent := last surprises 0 in
  let previous := removelast surprises in
  let previous_avg := Py.sum previous / Py.len previous in
  let trend := (most_recent - previous_avg) / 100 in
  Py.max (-1) (Py.min 1 trend).

(** The latest earnings row dated no later than now. *)
Definition most_recent_earnings (self : t) (instrument : Instrument)
  : option EarningsData :=
  hd_error
    (sort_by (fun e => (- earnings_date e)%Z)
             (filter (fun e => Z.eqb (ed_instrument_id e) (id instrument)
                               && Z.leb (earnings_date e) (utcnow (db self)))
                     (earnings (db self)))).

(** Building, saving and appending one signal; a failed save appends
    nothing. *)
Definition emit (self : t) (instrument : Instrument) (type_ : SignalType)
           (target stop confidence : Q) (atm : Option_) (params : Parameters)
           (signals : list Signal) : list Signal :=
  let signal_data := {|
    instrument_id := id instrument;
    signal_type := type_;
    signal_source := FUNDAMENTAL;
    status := PENDING;
    entry_price := None;
    target_price := Some target;
    stop_loss := Some stop;
    confidence_score := confidence;
    time_frame := "7d";
    option_id := opt_id atm;
    option_strike := strike_price atm;
    option_expiration := expiration_date atm;
    parameters := params
  |} in
  match save_signal (db self) signal_data with
  | Some signal => signals ++ [signal]
  | None => signals
  end.

Definition days_until (self : t) (upcoming_earnings : Z) : Z :=
  (date_of upcoming_earnings - date_of (utcnow (db self)))%Z.

Definition generate_signals (self : t) (instrument : Instrument) : list Signal :=
  let signals := [] in
  match current_price_of instrument with
  | None => signals
  | Some current_price =>
  match get_upcoming_earnings instrument with
  | None => signals
  | Some upcoming_earnings =>
    let days_until_earnings := days_until self upcoming_earnings in
    let historical_earnings :=
      get_historical_earnings_surprises self instrument 4 in
    let surprise_trend :=
      calculate_earnings_surprise_trend historical_earnings in
    let historical_surprises :=
      flat_map (fun e => match surprise_percentage e with
                         | Some v => [(earnings_date e, v)]
                         | None => []
                         end) historical_earnings in
    if Z.ltb 0 days_until_earnings
       && Z.leb days_until_earnings (days_before self) then
      if Py.ltb 0.2 surprise_trend then
        match find_atm_options (db self) (id instrument) current_price call 7 with
        | None => signals
        | Some atm_call =>
          emit self instrument LONG_CALL
               (current_price * 1.07) (current_price * 0.95)
               (0.6 + surprise_trend * 0.3) atm_call
               (EarningsParameters days_until_earnings surprise_trend
                                   historical_surprises)
               signals
        end
      else if Py.ltb surprise_trend (-0.2) then
        match find_atm_options (db self) (id instrument) current_price put 7 with
        | None => signals
        | Some atm_put =>
          emit self instrument LONG_PUT
               (current_price * 0.93) (current_price * 1.05)
               (0.6 + Qabs surprise_trend * 0.3) atm_put
               (EarningsParameters days_until_earnings surprise_trend
                                   historical_surprises)
               signals
        end
      else signals
    else if Z.leb (- days_after self) days_until_earnings
            && Z.leb days_until_earnings 0 then
      match most_recent_earnings self instrument with
      | None => signals
      | Some most_recent =>
        match surprise_percentage most_recent with
        | None => signals
        | Some surprise =>
          if Py.ltb 10 surprise then
            match find_atm_options (db self) (id instrument) current_price call 7 with
            | None => signals
            | Some atm_call =>
              emit self instrument LONG_CALL
                   (current_price * 1.08) (current_price * 0.96)
                   (0.7 + Py.min surprise 30 / 100) atm_call
                   (EarningsSurpriseParameters
                      (- days_until_earnings) surprise
                      (eps_actual most_recent) (eps_estimate most_recent))
                   signals
            end
          else if Py.ltb surprise (-10) then
            match find_atm_options (db self) (id instrument) current_price put 7 with
            | None => signals
            | Some atm_put =>
              emit self instrument LONG_PUT
                   (current_price * 0.92) (current_price * 1.04)
                   (0.7 + Py.min (Qabs surprise) 30 / 100) atm_put
                   (EarningsSurpriseParameters
                      (- days_until_earnings) surprise
                      (eps_actual most_recent) (eps_estimate most_recent))
                   signals
            end
          else signals
        end
      end
    else signals
  end end.



End EarningsStrategy.

(** ** Concrete sessions used to run the services *)

Module SizingExamples.
Import RiskManagementService.

Definition aapl : Instrument := {| instrument_id := 3; symbol := "AAPL" |}.

Definition account : Portfolio :=
  {| portfolio_id := 7; portfolio_user_id := 1; total_value := 100000 |}.

(** A session with a 100,000 portfolio, [max_portfolio_risk = 2] and the
    given single-stock allocation limit, holdings and fundamentals. *)
Definition session (allocation : Q) (held : list Position)
           (fundamentals : list FundamentalData) : Db := {|
  users := [ {| user_id := 1;
                risk_profile := Some {| max_portfolio_risk := 2;
                                        max_stock_allocation := allocation |} |} ];
  portfolios := [ account ];
  instruments := [ aapl ];
  positions := held;
  fundamental_data := fundamentals;
  partial_profit_takings := [];
  correlation_matrix := None;
  utcnow := 0
|}.

Definition profile (allocation : Q) : RiskProfile :=
  {| max_portfolio_risk := 2; max_stock_allocation := allocation |}.

(** Headroom 40,000 against a 33,000 floor. *)
Definition roomy : Db := session 40 [] [].

(** Headroom 20,000: positive but below the 33,000 floor. *)
Definition tight : Db := session 20 [] [].

(** Neutral fundamentals on file: no surprise, no analyst consensus, a P/E
    at the sector average. *)
Definition neutral : FundamentalData := {|
  fd_instrument_id := 3; fd_date := 1;
  earnings_surprise_pct := 0;
  analyst_rating_buy := 50; analyst_rating_sell := 20;
  pe_ratio := 25; sector_avg_pe := 25
|}.

(** Headroom 40,000 and neutral fundamentals. *)
Definition covered : Db := session 40 [] [neutral].

(** An open long position: entered at 10 with a stop at 8, 40 contracts. *)
Definition long_position (current : Q) : Position := {|
  position_id := 11; position_portfolio_id := 7; position_instrument_id := 3;
  status := "ACTIVE"; current_value := 0;
  entry_price := 10; current_price := current;
  stop_loss_price := Some 8; quantity := 40
|}.

(** The session holding that position at a given current price. *)
Definition holding (current : Q) : Db := session 40 [long_position current] [].

(** A session whose open position in the instrument, worth 25,000, already
    exceeds the 20,000 single-stock limit. *)
Definition exhausted : Db :=
  session 20
          [ {| position_id := 12; position_portfolio_id := 7;
               position_instrument_id := 3; status := "ACTIVE";
               current_value := 25000; entry_price := 10; current_price := 10;
               stop_loss_price := None; quantity := 25 |} ]
          [].

(** The session after the first ladder step has released its quarter. *)
Definition quarter_released : Db :=
  snd (implement_partial_profit_taking (holding 12.2) 11 0.22).

End SizingExamples.

Module EnsembleExamples.
Import Market EnsembleStrategy.

Definition msft : Instrument :=
  {| id := 3; symbol := "MSFT"; last_price := Some 100; next_date := None |}.

(** A candidate of a technical strategy with the given direction and
    confidence, without target or stop. *)
Definition candidate (type_ : SignalType) (confidence : Q) : Signal := {|
  signal_id := 0;
  data := {|
    instrument_id := 3; signal_type := type_; signal_source := TECHNICAL;
    status := PENDING; entry_price := None; target_price := None;
    stop_loss := None; confidence_score := confidence; time_frame := "7d";
    option_id := 0; option_strike := 100; option_expiration := 0;
    parameters := OtherParameters |}
|}.

Definition returning (signals : list Signal) : Strategy :=
  fun _ => Returns signals.

Definition raising : Strategy := fun _ => Raises.

Definition contract (k : Z) (type_ : OptionType) : Option_ := {|
  opt_id := k; opt_instrument_id := 3; expiration_date := midnight 7;
  strike_price := 100; option_type := type_ |}.

(** A session at day 0 with the given option chain, where commits succeed. *)
Definition chain (opts : list Option_) : Session := {|
  options := opts; earnings := []; utcnow := 0;
  commit := fun _ => Some 1%Z |}.

(** The default ensemble ([min_confidence = 0.6], [min_strategies = 2]). *)
Definition ensemble (opts : list Option_) (entries : list (string * Strategy)) : t :=
  {| db := chain opts; min_confidence := 0.6; min_strategies := 2;
     strategies := entries |}.

(** Scenario B: two strategies with calls at 0.7 and 0.8. *)
Definition scenario_b : t :=
  ensemble [contract 5 call; contract 6 put]
           [ ("rsi", returning [candidate LONG_CALL 0.7]);
             ("macd", returning [candidate LONG_CALL 0.8]) ]%string.

(** Scenario C: one strategy with a call at 0.9, nobody concurring. *)
Definition scenario_c : t :=
  ensemble [contract 5 call; contract 6 put]
           [ ("rsi", returning [candidate LONG_CALL 0.9]);
             ("macd", returning []) ]%string.

(** Two strategies agreeing on both a call and a put at 0.8, with only put
    contracts listed. *)
Definition both_ways : list (string * Strategy) :=
  [ ("rsi", returning [candidate LONG_CALL 0.8; candidate LONG_PUT 0.8]);
    ("macd", returning [candidate LONG_CALL 0.8; candidate LONG_PUT 0.8]) ]%string.

Definition puts_only : list (string * Strategy) :=
  [ ("rsi", returning [candidate LONG_PUT 0.8]);
    ("macd", returning [candidate LONG_PUT 0.8]) ]%string.

Definition no_call_contract : t := ensemble [contract 6 put] both_ways.

(** A cycle in which the second of three strategies raises. *)
Definition one_raises : t :=
  ensemble [contract 5 call; contract 6 put]
           [ ("rsi", returning [candidate LONG_CALL 0.7]);
             ("macd", raising);
             ("bollinger", returning [candidate LONG_CALL 0.8]) ]%string.

End EnsembleExamples.

Module EarningsExamples.
Import Market EarningsStrategy.

Definition quarter (day : Z) (surprise : Q) : EarningsData := {|
  ed_instrument_id := 3; earnings_date := midnight day;
  eps_estimate := Some 1; eps_actual := Some 1;
  surprise_percentage := Some surprise |}.

(** Day 1000: four past quarters with surprises 5, 5, 5 and 40 percent
    (trend 0.35), call and put contracts expiring in seven days, commits
    succeeding. *)
Definition books : Session := {|
  options :=
    [ {| opt_id := 5; opt_instrument_id := 3; expiration_date := midnight 1007;
         strike_price := 100; option_type := call |};
      {| opt_id := 6; opt_instrument_id := 3; expiration_date := midnight 1007;
         strike_price := 100; option_type := put |} ];
  earnings := [ quarter 640 5; quarter 730 5; quarter 820 5; quarter 910 40 ];
  utcnow := midnight 1000;
  commit := fun _ => Some 1%Z |}.

(** The instrument with its next earnings scheduled on the given day. *)
Definition reporting_on (day : Z) : Instrument :=
  {| id := 3; symbol := "NVDA"; last_price := Some 100;
     next_date := Some (midnight day) |}.

End EarningsExamples.

(** ** Further methods of the risk management service *)

Module ExitPlanning.
Import RiskManagementService.

(** *** [calculate_stop_loss_take_profit] *)

Definition risk_levels : list (string * Q) :=
  [ ("low", 0.10); ("normal", 0.15); ("high", 0.20) ]%string.

(** [risk_levels.get(risk_level, 0.15)]. *)
Definition risk_pct_of (risk_level : string) : Q :=
  match find (fun e => String.eqb (fst e) risk_level) risk_levels with
  | Some e => snd e
  | None => 0.15
  end.

Record StopLossTakeProfit := {
  sltp_position_id : Z;
  sltp_entry_price : Q;
  sltp_stop_loss_price : Q;
  sltp_take_profit_price : Q;
  sltp_risk_percentage : Q;
  sltp_risk_reward_ratio : Q;
  sltp_days_to_expiration : Z
}.

Definition calculate_stop_loss_take_profit
           (position_id : Z) (entry_price : Q) (days_to_expiration : Z)
           (risk_level : string) : StopLossTakeProfit :=
  let risk_pct := risk_pct_of risk_level in
  let dte_factor := Py.min 1 (inject_Z days_to_expiration / 7) in
  let adjusted_risk_pct := risk_pct * dte_factor in
  let stop_loss_price := entry_price * (1 - adjusted_risk_pct) in
  let risk := entry_price - stop_loss_price in
  let risk_reward_ratio := 2 in
  let take_profit_price := entry_price + risk * risk_reward_ratio in
  {| sltp_position_id := position_id;
     sltp_entry_price := entry_price;
     sltp_stop_loss_price := stop_loss_price;
     sltp_take_profit_price := take_profit_price;
     sltp_risk_percentage := adjusted_risk_pct;
     sltp_risk_reward_ratio := risk_reward_ratio;
     sltp_days_to_expiration := days_to_expiration |}.

(** *** [adjust_take_profit_for_dte] *)

Definition base_thresholds : list Threshold :=
  [ {| profit_pct := 0.20; take_pct := 0.25 |};
    {| profit_pct := 0.35; take_pct := 0.25 |};
    {| profit_pct := 0.50; take_pct := 0.25 |} ].

(** The body of the loop: a copy of the threshold with its profit level
    scaled by the days left. *)
Definition adjusted_threshold (days_to_expiration : Z) (threshold : Threshold)
  : Threshold :=
  if Z.leb days_to_expiration 1 then
    {| profit_pct := profit_pct threshold * 0.4; take_pct := take_pct threshold |}
  else if Z.leb days_to_expiration 2 then
    {| profit_pct := profit_pct threshold * 0.6; take_pct := take_pct threshold |}
  else if Z.leb days_to_expiration 3 then
    {| profit_pct := profit_pct threshold * 0.75; take_pct := take_pct threshold |}
  else if Z.leb days_to_expiration 5 then
    {| profit_pct := profit_pct threshold * 0.9; take_pct := take_pct threshold |}
  else threshold.

Record DteAdjustment := {
  dte_position_id : Z;
  dte_days_to_expiration : Z;
  dte_base_thresholds : list Threshold;
  adjusted_thresholds : list Threshold
}.

(** [expiration_date] is the position attribute of that name, a date as a day
    number; today is the date of the session clock. [None] is the
    ["Position not found"] dictionary. *)
Definition adjust_take_profit_for_dte
           (db : Db) (expiration_date : Position -> Z) (position_id : Z)
  : option DteAdjustment :=
  match query_position db position_id with
  | None => None
  | Some position =>
    let days_to_expiration :=
      (expiration_date position - Market.date_of (utcnow db))%Z in
    Some {| dte_position_id := position_id;
            dte_days_to_expiration := days_to_expiration;
            dte_base_thresholds := base_thresholds;
            adjusted_thresholds :=
              map (adjusted_threshold days_to_expiration) base_thresholds |}
  end.

(** Profit levels strictly increasing along a ladder. *)
Fixpoint increasing (ts : list Threshold) : Prop :=
  match ts with
  | a :: ((b :: _) as rest) => profit_pct a < profit_pct b /\ increasing rest
  | _ => True
  end.

(** *** [calculate_portfolio_risk_metrics] *)

(** [d[k] += v], with [d[k] = 0] first when [k] is new. *)
Fixpoint dict_add (d : list (string * Q)) (k : string) (v : Q)
  : list (string * Q) :=
  match d with
  | [] => [(k, 0 + v)]
  | (k', v') :: rest =>
    if String.eqb k' k then (k', v' + v) :: rest
    else (k', v') :: dict_add rest k v
  end.

Definition query_portfolio_by_id (db : Db) (pfid : Z) : option Portfolio :=
  find (fun p => Z.eqb (portfolio_id p) pfid) (portfolios db).

Definition exposure_by_stock (db : Db) (active : list Position)
  : list (string * Q) :=
  fold_left
    (fun exposure position =>
       match query_instrument db (position_instrument_id position) with
       | Some instrument =>
         dict_add exposure (symbol instrument) (current_value position)
       | None => exposure
       end)
    active [].

(** The pairs [(i, j)], [i < j], of a list, in loop order. *)
Fixpoint pairs {A} (xs : list A) : list (A * A) :=
  match xs with
  | [] => []
  | x :: rest => map (fun y => (x, y)) rest ++ pairs rest
  end.

Definition position_symbols (db : Db) (m : CorrelationMatrix)
           (active : list Position) : list string :=
  flat_map
    (fun position =>
       match query_instrument db (position_instrument_id position) with
       | Some instrument =>
         if in_labels (symbol instrument) m then [symbol instrument] else []
       | None => []
       end)
    active.

Definition correlation_risk_of (db : Db) (active : list Position) : Q :=
  match correlation_matrix db with
  | Some m =>
    if Nat.ltb 1 (List.length active) then
      let symbols := position_symbols db m active in
      if Nat.ltb 1 (List.length symbols) then
        let corr_values := map (fun p => loc m (fst p) (snd p)) (pairs symbols) in
        match corr_values with
        | [] => 0.5
        | _ => Py.sum corr_values / Py.len corr_values
        end
      else 0.5
    else 0.5
  | None => 0.5
  end.

Record RiskMetrics := {
  rm_portfolio_id : Z;
  rm_total_value : Q;
  total_exposure : Q;
  exposure_percentage : Q;
  rm_exposure_by_stock : list (string * Q);
  exposure_percentage_by_stock : list (string * Q);
  correlation_risk : Q;
  active_positions_count : Z
}.

(** [MetricsInternalError] is the [except Exception] branch: the per-stock
    percentages divide by a zero portfolio value. *)
Inductive RiskMetricsResult :=
| MetricsPortfolioNotFound
| MetricsInternalError
| MetricsOk (r : RiskMetrics).

Definition calculate_portfolio_risk_metrics (db : Db) (portfolio_id : Z)
  : RiskMetricsResult :=
  match query_portfolio_by_id db portfolio_id with
  | None => MetricsPortfolioNotFound
  | Some portfolio =>
    let active := active_positions db portfolio_id in
    let total_exposure := Py.sum (map current_value active) in
    let exposure_pct :=
      if Py.ltb 0 (total_value portfolio)
      then total_exposure / total_value portfolio else 0 in
    let exposure := exposure_by_stock db active in
    if negb (Nat.eqb (List.length exposure) 0)
       && Qeq_bool (total_value portfolio) 0
    then MetricsInternalError
    else
      MetricsOk {|
        rm_portfolio_id := portfolio_id;
        rm_total_value := total_value portfolio;
        total_exposure := total_exposure;
        exposure_percentage := exposure_pct;
        rm_exposure_by_stock := exposure;
        exposure_percentage_by_stock :=
          map (fun e => (fst e, snd e / total_value portfolio)) exposure;
        correlation_risk := correlation_risk_of db active;
        active_positions_count := Z.of_nat (List.length active) |}
  end.

End ExitPlanning.

(** ** The plain risk-based sizing of [risk_management_service.py] *)

Module PlainSizing.
Import RiskManagementService.

Record Sized := {
  plain_contracts : Z;
  plain_max_capital : Q;
  plain_risk_per_trade : Q;
  plain_contract_value : Q;
  plain_portfolio_value : Q;
  plain_current_allocation : Q;
  plain_available_allocation : Q;
  plain_confidence_multiplier : Q
}.

Inductive Result :=
| Failed (e : SizingError)
| Ok (r : Sized).

Definition calculate_position_size
           (db : Db) (user_id instrument_id : Z)
           (signal_confidence option_price : Q) : Result :=
  match query_user db user_id with
  | None => Failed UserNotFound
  | Some user =>
  match risk_profile user with
  | None => Failed UserNotFound
  | Some profile =>
  match query_portfolio db user_id with
  | None => Failed PortfolioNotFound
  | Some portfolio =>
  match query_instrument db instrument_id with
  | None => Failed InstrumentNotFound
  | Some instrument =>
    let max_portfolio_risk := max_portfolio_risk profile in
    let portfolio_value := total_value portfolio in
    let risk_per_trade := portfolio_value * (max_portfolio_risk / 100) in
    let confidence_multiplier := 0.5 + signal_confidence in
    let adjusted_risk := risk_per_trade * confidence_multiplier in
    let max_capital := adjusted_risk in
    let contract_value := option_price * 100 in
    if Qeq_bool contract_value 0 then Failed InternalError else
    let contracts := Py.int (max_capital / contract_value) in
    let contracts :=
      if Z.ltb contracts 1 && Py.leb contract_value max_capital
      then 1%Z else contracts in
    let max_stock_allocation := max_stock_allocation profile in
    let max_stock_capital := portfolio_value * (max_stock_allocation / 100) in
    let current_positions :=
      current_positions db (portfolio_id portfolio) instrument_id in
    let current_allocation := Py.sum (map current_value current_positions) in
    let available_allocation := max_stock_capital - current_allocation in
    if Py.leb available_allocation 0
    then Failed (MaximumAllocationReached (symbol instrument)) else
    let '(max_capital, contracts) :=
      if Py.ltb available_allocation max_capital then
        (available_allocation, Py.int (available_allocation / contract_value))
      else (max_capital, contracts) in
    Ok {| plain_contracts := contracts;
          plain_max_capital := max_capital;
          plain_risk_per_trade := adjusted_risk;
          plain_contract_value := contract_value;
          plain_portfolio_value := portfolio_value;
          plain_current_allocation := current_allocation;
          plain_available_allocation := available_allocation;
          plain_confidence_multiplier := confidence_multiplier |}
  end end end end.

End PlainSizing.

(** ** The contracts an option lookup may return *)

Module Selection.
Import Market.

(** The filter of [find_atm_options]: a listed contract of the instrument and
    type expiring within two days of the target date. *)
Definition qualifies (db : Session) (instrument_id : Z)
           (option_type_ : OptionType) (days_to_expiration : Z)
           (o : Option_) : Prop :=
  In o (options db) /\
  opt_instrument_id o = instrument_id /\
  option_type o = option_type_ /\
  (midnight (date_of (utcnow db) + days_to_expiration - 2) <= expiration_date o
   <= midnight (date_of (utcnow db) + days_to_expiration + 2))%Z.

(** The key of the selection: the distance of the strike from the price. *)
Definition distance (price : Q) (o : Option_) : Q :=
  Qabs (strike_price o - price).

End Selection.

(** ** The buckets of an ensemble cycle, as comprehensions *)

Module Buckets.
Import Market EnsembleStrategy.

Definition is_call (s : Signal) : bool :=
  match signal_type (data s) with LONG_CALL => true | _ => false end.

Definition is_put (s : Signal) : bool :=
  match signal_type (data s) with LONG_PUT => true | _ => false end.

(** [[(name, s) for name, signals in d for s in signals if keep(s)]]. *)
Definition candidates_of (keep : Signal -> bool)
           (strategy_signals : list (string * list Signal))
  : list (string * Signal) :=
  flat_map (fun e => map (pair (fst e)) (filter keep (snd e))) strategy_signals.

(** The non-empty results of the strategies that did not raise, in the order
    of the [strategies] dictionary. *)
Definition returned (self : t) (instrument : Instrument)
  : list (string * list Signal) :=
  flat_map (fun e => match snd e instrument with
                     | Returns (x :: rest) => [(fst e, x :: rest)]
                     | _ => []
                     end)
           (strategies self).

(** A combined price: the fallback when nobody specifies one, otherwise a
    value between any bounds that hold for all the specified ones. *)
Definition within (specified : list Q) (fallback value : Q) : Prop :=
  (specified = [] -> value = fallback) /\
  (forall lo hi, specified <> [] ->
                 (forall x, In x specified -> lo <= x <= hi) ->
                 lo <= value <= hi).

(** What a combined signal of one direction looks like: pending, unpriced at
    entry, for the instrument, on the contract the lookup returned, with the
    combined target and stop of its bucket. *)
Definition combined_from (self : t) (instrument : Instrument) (price : Q)
           (type_ : SignalType) (option_type_ : OptionType)
           (target_factor stop_factor : Q)
           (votes : list (string * Signal)) (s : Signal) : Prop :=
  exists atm target stop,
    find_atm_options (db self) (id instrument) price option_type_ 7 = Some atm /\
    signal_type (data s) = type_ /\
    signal_source (data s) = ENSEMBLE /\
    status (data s) = PENDING /\
    entry_price (data s) = None /\
    instrument_id (data s) = id instrument /\
    min_confidence self <= confidence_score (data s) /\
    option_id (data s) = opt_id atm /\
    option_strike (data s) = strike_price atm /\
    option_expiration (data s) = expiration_date atm /\
    target_price (data s) = Some target /\
    stop_loss (data s) = Some stop /\
    within (present (map (fun e => target_price (data (snd e))) votes))
           (price * target_factor) target /\
    within (present (map (fun e => stop_loss (data (snd e))) votes))
           (price * stop_factor) stop.

End Buckets.

(** ** Valuation strategy *)

Module ValuationStrategy.
Import Market.

(** [Sector] of [app.models.market_data], with the values the column
    stores. *)
Inductive Sector :=
| TECHNOLOGY | COMMUNICATION_SERVICES | CONSUMER_DISCRETIONARY
| CONSUMER_STAPLES | ENERGY | FINANCIALS | HEALTH_CARE | INDUSTRIALS
| MATERIALS | REAL_ESTATE | UTILITIES.

Definition sector_value (s : Sector) : string :=
  match s with
  | TECHNOLOGY => "technology"
  | COMMUNICATION_SERVICES => "communication_services"
  | CONSUMER_DISCRETIONARY => "consumer_discretionary"
  | CONSUMER_STAPLES => "consumer_staples"
  | ENERGY => "energy"
  | FINANCIALS => "financials"
  | HEALTH_CARE => "health_care"
  | INDUSTRIALS => "industrials"
  | MATERIALS => "materials"
  | REAL_ESTATE => "real_estate"
  | UTILITIES => "utilities"
  end.

Record FinancialMetric := {
  fm_instrument_id : Z;
  date : Z;
  metric_type : string;
  value : Q
}.

(** [self]: the session of the signal tables, the instruments table with
    the [sector] column of each instrument, and the financial metrics
    table. *)
Record t := {
  db : Session;
  instruments : list Instrument;
  sector : Instrument -> option Sector;
  financial_metrics : list FinancialMetric
}.

(** [d[k]] guarded by [k in d], on an insertion-ordered dictionary. *)
Definition dict_get {V} (d : list (string * V)) (k : string) : option V :=
  match find (fun e => String.eqb (fst e) k) d with
  | Some e => Some (snd e)
  | None => None
  end.

(** The body of the grouping loop: the value of a metric type not met yet
    is stored. *)
Definition keep_first (metrics : list (string * Q)) (metric : FinancialMetric)
  : list (string * Q) :=
  match dict_get metrics (metric_type metric) with
  | None =>
    EnsembleStrategy.dict_set metrics (metric_type metric) (value metric)
  | Some _ => metrics
  end.

(** The rows of the instrument, latest first; the first value met of each
    metric type is kept. *)
Definition get_valuation_metrics (self : t) (instrument : Instrument)
  : list (string * Q) :=
  let financial_metrics :=
    EarningsStrategy.sort_by
      (fun m => (- date m)%Z)
      (filter (fun m => Z.eqb (fm_instrument_id m) (id instrument))
              (financial_metrics self)) in
  fold_left keep_first financial_metrics [].

(** [if k not in d: d[k] = []] followed by [d[k].append(v)]. *)
Fixpoint dict_append (d : list (string * list Q)) (k : string) (v : Q)
  : list (string * list Q) :=
  match d with
  | [] => [(k, [] ++ [v])]
  | (k', vs) :: rest =>
    if String.eqb k' k then (k', vs ++ [v]) :: rest
    else (k', vs) :: dict_append rest k v
  end.

(** The instruments whose [sector] column equals the given sector. *)
Definition in_sector (self : t) (sector_ : Sector) : list Instrument :=
  filter (fun i => match sector self i with
                   | Some s => String.eqb (sector_value s) (sector_value sector_)
                   | None => false
                   end)
         (instruments self).

(** The body of the inner collecting loop, on one [(metric_type, value)]
    item. *)
Definition append_entry (all_metrics : list (string * list Q))
           (e : string * Q) : list (string * list Q) :=
  dict_append all_metrics (fst e) (snd e).

(** The collecting loop of [get_sector_average_metrics], from a given
    [all_metrics]. *)
Definition collect_from (self : t) (all_metrics : list (string * list Q))
           (instruments : list Instrument) : list (string * list Q) :=
  fold_left
    (fun all_metrics instrument =>
       fold_left append_entry (get_valuation_metrics self instrument)
                 all_metrics)
    instruments all_metrics.

Definition collect_metrics (self : t) (instruments : list Instrument)
  : list (string * list Q) :=
  collect_from self [] instruments.

(** The body of the averaging loop: [if values] guards the division. *)
Definition average_entry (sector_metrics : list (string * Q))
           (e : string * list Q) : list (string * Q) :=
  match snd e with
  | [] => sector_metrics
  | values =>
    EnsembleStrategy.dict_set sector_metrics (fst e)
                              (Py.sum values / Py.len values)
  end.

(** The averaging loop of [get_sector_average_metrics]. *)
Definition averages (all_metrics : list (string * list Q))
  : list (string * Q) :=
  fold_left average_entry all_metrics [].

Definition get_sector_average_metrics (self : t) (sector_ : Sector)
  : list (string * Q) :=
  match in_sector self sector_ with
  | [] => []
  | instruments => averages (collect_metrics self instruments)
  end.

(** A factor dictionary (its category is always ['fundamental'], its
    description a formatted text). *)
Record Factor := {
  factor_name : string;
  factor_value : Q;
  factor_weight : Q
}.

(** 20% below, and 20% above, the sector average. *)
Definition below (v avg : Q) : bool := Py.ltb v (avg * 0.8).
Definition above (v avg : Q) : bool := Py.ltb (avg * 1.2) v.

(** One [if name in metrics and name in sector_metrics] block, on the pair
    of the flag and the factor list. *)
Definition check (triggered : Q -> Q -> bool) (name : string) (weight : Q)
           (metrics sector_metrics : list (string * Q))
           (state : bool * list Factor) : bool * list Factor :=
  match dict_get metrics name, dict_get sector_metrics name with
  | Some v, Some avg =>
    if triggered v avg
    then (true,
          snd state ++ [ {| factor_name := name; factor_value := v;
                            factor_weight := weight |} ])
    else state
  | _, _ => state
  end.

(** [(is_undervalued, undervaluation_factors)] after the four checks. *)
Definition undervaluation (metrics sector_metrics : list (string * Q))
  : bool * list Factor :=
  check above "profit_margin" 0.2 metrics sector_metrics
    (check below "price_to_book" 0.25 metrics sector_metrics
       (check below "peg_ratio" 0.25 metrics sector_metrics
          (check below "pe_ratio" 0.3 metrics sector_metrics (false, [])))).

(** [(is_overvalued, overvaluation_factors)] after the four checks. *)
Definition overvaluation (metrics sector_metrics : list (string * Q))
  : bool * list Factor :=
  check below "profit_margin" 0.2 metrics sector_metrics
    (check above "price_to_book" 0.25 metrics sector_metrics
       (check above "peg_ratio" 0.25 metrics sector_metrics
          (check above "pe_ratio" 0.3 metrics sector_metrics (false, [])))).

(** The confidence loop: 0.6 plus 0.3 times each factor weight. *)
Definition confidence_of (factors : list Factor) : Q :=
  fold_left (fun confidence_score factor =>
               confidence_score + factor_weight factor * 0.3)
            factors 0.6.

(** One directional block: the signal of a triggered direction is built on
    the contract found, saved and appended; a missing contract returns. The
    [parameters] entry, which repeats the two dictionaries, is not
    modelled. *)
Definition block (self : t) (instrument : Instrument) (current_price : Q)
           (type_ : SignalType) (option_type_ : OptionType)
           (target_factor stop_factor : Q) (state : bool * list Factor)
           (signals : list Signal) : EnsembleStrategy.Flow :=
  if fst state && negb (Nat.eqb (List.length (snd state)) 0) then
    match find_atm_options (db self) (id instrument) current_price
                           option_type_ 7 with
    | None => EnsembleStrategy.Return signals
    | Some atm =>
      let confidence_score := confidence_of (snd state) in
      let signal_data := {|
        instrument_id := id instrument;
        signal_type := type_;
        signal_source := FUNDAMENTAL;
        status := PENDING;
        entry_price := None;
        target_price := Some (current_price * target_factor);
        stop_loss := Some (current_price * stop_factor);
        confidence_score := Py.min 0.9 confidence_score;
        time_frame := "7d";
        option_id := opt_id atm;
        option_strike := strike_price atm;
        option_expiration := expiration_date atm;
        parameters := OtherParameters
      |} in
      match save_signal (db self) signal_data with
      | Some signal => EnsembleStrategy.Continue (signals ++ [signal])
      | None => EnsembleStrategy.Continue signals
      end
    end
  else EnsembleStrategy.Continue signals.

Definition generate_signals (self : t) (instrument : Instrument)
  : list Signal :=
  let signals := [] in
  match current_price_of instrument with
  | None => signals
  | Some current_price =>
    let metrics := get_valuation_metrics self instrument in
    let sector_metrics :=
      match sector self instrument with
      | Some s => get_sector_average_metrics self s
      | None => []
      end in
    match block self instrument current_price LONG_CALL call 1.06 0.96
                (undervaluation metrics sector_metrics) signals with
    | EnsembleStrategy.Return signals => signals
    | EnsembleStrategy.Continue signals =>
      match block self instrument current_price LONG_PUT put 0.94 1.04
                  (overvaluation metrics sector_metrics) signals with
      | EnsembleStrategy.Return signals => signals
      | EnsembleStrategy.Continue signals => signals
      end
    end
  end.

(** The latest values of one metric type over a list of instruments: one
    value for each instrument that has the type on file. *)
Definition values_of (self : t) (k : string) (instruments : list Instrument)
  : list Q :=
  flat_map (fun i => match dict_get (get_valuation_metrics self i) k with
                     | Some v => [v]
                     | None => []
                     end)
           instruments.

(** The list stored under a key, empty when the key is missing. *)
Definition or_nil (o : option (list Q)) : list Q :=
  match o with
  | Some vs => vs
  | None => []
  end.

(** Keys in ascending order along a list. *)
Fixpoint ascending {A} (key : A -> Z) (xs : list A) : Prop :=
  match xs with
  | [] => True
  | x :: rest =>
    (forall y, In y rest -> (key x <= key y)%Z) /\ ascending key rest
  end.

End ValuationStrategy.

(** ** Analyst rating strategy *)

Module AnalystRatingStrategy.
Import Market.

Record AnalystRating := {
  ar_instrument_id : Z;
  rating_date : Z;
  rating : string;
  price_target : option Q
}.

Record t := {
  db : Session;
  analyst_ratings : list AnalystRating;
  min_ratings : Z
}.

(** The ratings of the instrument dated within [days] days, latest first. *)
Definition get_recent_ratings (self : t) (instrument : Instrument) (days : Z)
  : list AnalystRating :=
  let cutoff_date := (utcnow (db self) - days * 86400)%Z in
  EarningsStrategy.sort_by
    (fun r => (- rating_date r)%Z)
    (filter (fun r => Z.eqb (ar_instrument_id r) (id instrument)
                      && Z.leb cutoff_date (rating_date r))
            (analyst_ratings self)).

(** [str.lower] on the letters A to Z; the keywords below are plain ASCII
    and no other character lowers to one of their letters in place. *)
Definition lower_char (c : Ascii.ascii) : Ascii.ascii :=
  let n := Ascii.nat_of_ascii c in
  if Nat.leb 65 n && Nat.leb n 90 then Ascii.ascii_of_nat (n + 32) else c.

Fixpoint lower (s : string) : string :=
  match s with
  | EmptyString => EmptyString
  | String c rest => String (lower_char c) (lower rest)
  end.

(** [needle in text] on strings. *)
Fixpoint contains (needle text : string) : bool :=
  String.prefix needle text
  || match text with
     | EmptyString => false
     | String _ rest => contains needle rest
     end.

Inductive Category := Buy | Sell | Hold.

Definition categorize (rating : string) : Category :=
  let rating_text := lower rating in
  if contains "buy" rating_text || contains "outperform" rating_text
     || contains "overweight" rating_text then Buy
  else if contains "sell" rating_text || contains "underperform" rating_text
          || contains "underweight" rating_text then Sell
  else Hold.

Record RatingCounts := {
  buy : Z;
  hold : Z;
  sell : Z
}.

Definition count (counts : RatingCounts) (c : Category) : RatingCounts :=
  match c with
  | Buy => {| buy := buy counts + 1; hold := hold counts; sell := sell counts |}
  | Sell => {| buy := buy counts; hold := hold counts; sell := sell counts + 1 |}
  | Hold => {| buy := buy counts; hold := hold counts + 1; sell := sell counts |}
  end%Z.

Record Analysis := {
  rating_counts : RatingCounts;
  avg_price_target : option Q;
  price_target_change : option Q;
  sentiment_score : Q
}.

(** The body of the loop over the ratings, on
    [(rating_counts, price_targets)]. *)
Definition tally_step (acc : RatingCounts * list Q) (r : AnalystRating)
  : RatingCounts * list Q :=
  (count (fst acc) (categorize (rating r)),
   if Py.truthy (price_target r)
   then match price_target r with
        | Some p => snd acc ++ [p]
        | None => snd acc
        end
   else snd acc).

Definition tally (ratings : list AnalystRating) : RatingCounts * list Q :=
  fold_left tally_step ratings ({| buy := 0; hold := 0; sell := 0 |}, []).

(** [sum(rating_counts.values())]. *)
Definition total (counts : RatingCounts) : Z :=
  (buy counts + hold counts + sell counts)%Z.

(** [None] is the empty dictionary. *)
Definition analyze_ratings (self : t) (ratings : list AnalystRating)
           (current_price : Q) : option Analysis :=
  if Nat.eqb (List.length ratings) 0
     || Z.ltb (Z.of_nat (List.length ratings)) (min_ratings self)
  then None
  else
    let rating_counts := fst (tally ratings) in
    let price_targets := snd (tally ratings) in
    let avg_price_target :=
      match price_targets with
      | [] => None
      | _ => Some (Py.sum price_targets / Py.len price_targets)
      end in
    let price_target_change :=
      match avg_price_target with
      | Some avg =>
        if Py.truthy (Some avg) && Py.truthy (Some current_price)
        then Some (avg / current_price - 1)
        else None
      | None => None
      end in
    let total_ratings := total rating_counts in
    let buy_percentage :=
      if Z.ltb 0 total_ratings
      then inject_Z (buy rating_counts) / inject_Z total_ratings else 0 in
    let sell_percentage :=
      if Z.ltb 0 total_ratings
      then inject_Z (sell rating_counts) / inject_Z total_ratings else 0 in
    Some {| rating_counts := rating_counts;
            avg_price_target := avg_price_target;
            price_target_change := price_target_change;
            sentiment_score := buy_percentage - sell_percentage |}.

(** A condition [sentiment ... and price_target_change ...]: comparing a
    [None] price target change raises [TypeError], which is [None] here; the
    second operand is only evaluated when the first holds. *)
Definition both (first : bool) (second : Q -> bool) (change : option Q)
  : option bool :=
  if first then
    match change with
    | Some c => Some (second c)
    | None => None
    end
  else Some false.

(** Building, saving and appending one signal; the [parameters] entry, which
    repeats the analysis, is not modelled. *)
Definition emit (self : t) (instrument : Instrument) (type_ : SignalType)
           (target stop confidence : Q) (atm : Option_)
           (signals : list Signal) : list Signal :=
  let signal_data := {|
    instrument_id := id instrument;
    signal_type := type_;
    signal_source := FUNDAMENTAL;
    status := PENDING;
    entry_price := None;
    target_price := Some target;
    stop_loss := Some stop;
    confidence_score := confidence;
    time_frame := "7d";
    option_id := opt_id atm;
    option_strike := strike_price atm;
    option_expiration := expiration_date atm;
    parameters := OtherParameters
  |} in
  match save_signal (db self) signal_data with
  | Some signal => signals ++ [signal]
  | None => signals
  end.

Definition generate_signals (self : t) (instrument : Instrument)
  : list Signal :=
  let signals := [] in
  match current_price_of instrument with
  | None => signals
  | Some current_price =>
    let ratings := get_recent_ratings self instrument 30 in
    match analyze_ratings self ratings current_price with
    | None => signals
    | Some analysis =>
      let sentiment := sentiment_score analysis in
      let change := price_target_change analysis in
      match both (Py.ltb 0.5 sentiment) (fun c => Py.ltb 0.1 c) change with
      | None => signals
      | Some true =>
        match find_atm_options (db self) (id instrument) current_price
                               call 7 with
        | None => signals
        | Some atm_call =>
          match change with
          | None => signals
          | Some c =>
            emit self instrument LONG_CALL
                 (current_price * (1 + Py.min 0.1 (c / 2)))
                 (current_price * 0.95)
                 (0.5 + sentiment * 0.4) atm_call signals
          end
        end
      | Some false =>
        match both (Py.ltb sentiment (-0.3)) (fun c => Py.ltb c (-0.1))
                   change with
        | None => signals
        | Some true =>
          match find_atm_options (db self) (id instrument) current_price
                                 put 7 with
          | None => signals
          | Some atm_put =>
            match change with
            | None => signals
            | Some c =>
              emit self instrument LONG_PUT
                   (current_price * (1 + Py.max (-0.1) (c / 2)))
                   (current_price * 1.05)
                   (0.5 + Qabs sentiment * 0.4) atm_put signals
            end
          end
        | Some false => signals
        end
      end
    end
  end.

End AnalystRatingStrategy.

(** ** Further concrete sessions *)

Module MoreExamples.
Import RiskManagementService SizingExamples.

(** A portfolio worth nothing that still holds an active position in a known
    instrument. *)
Definition worthless : Db := {|
  users := [];
  portfolios := [ {| portfolio_id := 7; portfolio_user_id := 1;
                     total_value := 0 |} ];
  instruments := [ aapl ];
  positions := [ long_position 12 ];
  fundamental_data := [];
  partial_profit_takings := [];
  correlation_matrix := None;
  utcnow := 0
|}.


End MoreExamples.

(** ** Concrete books for the valuation and analyst strategies *)

Module FundamentalExamples.
Import Market.

(** The instrument of the earnings books, priced at 100. *)
Definition nvda : Instrument := EarningsExamples.reporting_on 1000.

Definition amd : Instrument :=
  {| id := 4; symbol := "AMD"; last_price := Some 50; next_date := None |}.

Definition metric (instrument : Z) (day : Z) (type_ : string) (v : Q)
  : ValuationStrategy.FinancialMetric :=
  {| ValuationStrategy.fm_instrument_id := instrument;
     ValuationStrategy.date := midnight day;
     ValuationStrategy.metric_type := type_;
     ValuationStrategy.value := v |}.

(** Two technology stocks: the first trades at a P/E of 10 (50 a year
    earlier), the second at 30. *)
Definition screen : ValuationStrategy.t := {|
  ValuationStrategy.db := EarningsExamples.books;
  ValuationStrategy.instruments := [ nvda; amd ];
  ValuationStrategy.sector := fun _ => Some ValuationStrategy.TECHNOLOGY;
  ValuationStrategy.financial_metrics :=
    [ metric 3 600 "pe_ratio" 50; metric 3 990 "pe_ratio" 10;
      metric 4 990 "pe_ratio" 30 ]
|}.

(** The same books with the first stock alone in its sector. *)
Definition alone : ValuationStrategy.t := {|
  ValuationStrategy.db := EarningsExamples.books;
  ValuationStrategy.instruments := [ nvda ];
  ValuationStrategy.sector := fun _ => Some ValuationStrategy.TECHNOLOGY;
  ValuationStrategy.financial_metrics :=
    [ metric 3 600 "pe_ratio" 50; metric 3 990 "pe_ratio" 10 ]
|}.




End FundamentalExamples.

(** ** Facts about the Python primitives *)

Module PyFacts.

Lemma ltb_true x y : Py.ltb x y = true <-> x < y.
Proof.
  unfold Py.ltb. rewrite negb_true_iff, <- not_true_iff_false, Qle_bool_iff.
  split; [apply Qnot_le_lt | apply Qlt_not_le].
Qed.

Lemma ltb_false x y : Py.ltb x y = false <-> y <= x.
Proof.
  unfold Py.ltb. rewrite negb_false_iff. apply Qle_bool_iff.
Qed.

Lemma leb_true x y : Py.leb x y = true <-> x <= y.
Proof. apply Qle_bool_iff. Qed.

Lemma leb_false x y : Py.leb x y = false <-> y < x.
Proof.
  unfold Py.leb. rewrite <- not_true_iff_false, Qle_bool_iff.
  split; [apply Qnot_le_lt | apply Qlt_not_le].
Qed.

Lemma eqb_false x y : Qeq_bool x y = false <-> ~ x == y.
Proof.
  rewrite <- not_true_iff_false, Qeq_bool_iff. tauto.
Qed.

(** Turn every boolean comparison in the context into its proposition. *)
Ltac reflect_hyps :=
  repeat match goal with
         | H : Py.ltb _ _ = true |- _ => apply ltb_true in H
         | H : Py.ltb _ _ = false |- _ => apply ltb_false in H
         | H : Py.leb _ _ = true |- _ => apply leb_true in H
         | H : Py.leb _ _ = false |- _ => apply leb_false in H
         | H : Qeq_bool _ _ = true |- _ => apply Qeq_bool_iff in H
         | H : Qeq_bool _ _ = false |- _ => apply eqb_false in H
         | H : _ && _ = true |- _ => apply andb_true_iff in H; destruct H
         end.

Lemma max_spec a b :
  (a < b /\ Py.max a b = b) \/ (b <= a /\ Py.max a b = a).
Proof.
  unfold Py.max. destruct (Py.ltb a b) eqn:E; reflect_hyps; auto.
Qed.

Lemma min_spec a b :
  (b < a /\ Py.min a b = b) \/ (a <= b /\ Py.min a b = a).
Proof.
  unfold Py.min. destruct (Py.ltb b a) eqn:E; reflect_hyps; auto.
Qed.

Lemma max_ge_l a b : a <= Py.max a b.
Proof. destruct (max_spec a b) as [[? ->]|[? ->]]; lra. Qed.



Lemma min_le_r a b : Py.min a b <= b.
Proof. destruct (min_spec a b) as [[? ->]|[? ->]]; lra. Qed.

Lemma ceil_ge x : x <= inject_Z (Py.ceil x).
Proof. apply Qle_ceiling. Qed.

Lemma ceil_pos x : 0 < x -> (0 < Py.ceil x)%Z.
Proof.
  intros H. pose proof (ceil_ge x) as Hc.
  assert (0 < inject_Z (Py.ceil x)) as Hp by lra.
  rewrite (Zlt_Qlt 0 (Py.ceil x)). exact Hp.
Qed.

Lemma fold_plus_acc xs : forall a, fold_left Qplus xs a == a + Py.sum xs.
Proof.
  unfold Py.sum. induction xs as [|x xs IH]; intros a; simpl.
  - lra.
  - rewrite IH, (IH (0 + x)). lra.
Qed.

Lemma sum_cons x xs : Py.sum (x :: xs) == x + Py.sum xs.
Proof.
  unfold Py.sum at 1. simpl. rewrite fold_plus_acc. lra.
Qed.

Lemma sum_app xs ys : Py.sum (xs ++ ys) == Py.sum xs + Py.sum ys.
Proof.
  induction xs as [|x xs IH]; simpl.
  - unfold Py.sum at 2. simpl. lra.
  - rewrite !sum_cons, IH. lra.
Qed.

End PyFacts.

Module SizingProps.
Import RiskManagementService PyFacts.

Lemma floor_positive portfolio : 33000 <= floor_of portfolio.
Proof. apply max_ge_l. Qed.



(** C2, as amended. With the user, the portfolio and the instrument found
    and a positive option price, the call fails with the
    "Maximum allocation reached" result, contract count 0, exactly when the
    allocation headroom is at most 0; with any positive headroom, below the
    floor or not, it returns a sizing and no error. *)
Theorem sizing_allocation_error :
  forall db uid iid conf option_price user profile portfolio instrument,
    query_user db uid = Some user ->
    risk_profile user = Some profile ->
    query_portfolio db uid = Some portfolio ->
    query_instrument db iid = Some instrument ->
    0 < option_price ->
    (headroom_of db profile portfolio iid <= 0 ->
     calculate_position_size db uid iid conf option_price
     = SizingFailed (MaximumAllocationReached (symbol instrument)) /\
     result_contracts
       (calculate_position_size db uid iid conf option_price) = 0%Z)
    /\
    (0 < headroom_of db profile portfolio iid ->
     exists r,
       calculate_position_size db uid iid conf option_price = SizingOk r /\
       available_allocation r = headroom_of db profile portfolio iid).
Proof.
  intros db uid iid conf option_price user profile portfolio instrument
         Hu Hp Hpf Hi Hprice.
  unfold calculate_position_size. rewrite Hu, Hp, Hpf, Hi.
  fold (floor_of portfolio). fold (headroom_of db profile portfolio iid).
  destruct (Qeq_bool (option_price * 100) 0) eqn:Hz; reflect_hyps; [lra|].
  split; intros Hroom.
  - destruct (Py.leb (headroom_of db profile portfolio iid) 0) eqn:Ha;
      reflect_hyps; [|lra].
    split; reflexivity.
  - destruct (Py.leb (headroom_of db profile portfolio iid) 0) eqn:Ha;
      reflect_hyps; [lra|].
    repeat match goal with
           | |- context [if ?b then _ else _] => destruct b
           end.
    all: eexists; split; reflexivity.
Qed.

End SizingProps.

Module SizingChecks.
Import RiskManagementService SizingExamples.

(** Scenario A of the specification: confidence 0.85, a 100,000 portfolio
    and a 250 contract value give a 33,000 floor, 132 minimum contracts and
    the 1.5 tier. *)
Example scenario_A :
  exists r,
    calculate_position_size roomy 1 3 0.85 2.5 = SizingOk r /\
    min_position_size r == 33000 /\
    contract_value r == 250 /\
    min_contracts r = 132%Z /\
    max_scaling r == 1.5 /\
    contracts r = 132%Z.
Proof.
  eexists. split; [reflexivity|]. vm_compute. intuition congruence.
Qed.


(** C2 fails as stated: with headroom 20,000 below the 33,000 floor the call
    does not fail; it returns 132 contracts. *)
Lemma sizing_below_floor_not_refused :
  headroom_of tight (profile 20) account 3 < floor_of account /\
  exists r,
    calculate_position_size tight 1 3 0.5 2.5 = SizingOk r /\
    contracts r = 132%Z /\
    result_contracts (calculate_position_size tight 1 3 0.5 2.5) <> 0%Z.
Proof.
  split; [reflexivity|].
  eexists. split; [reflexivity|]. split; [reflexivity|].
  vm_compute. discriminate.
Qed.

Lemma sizing_allocation_error_witness :
  (calculate_position_size exhausted 1 3 0.5 2.5
   = SizingFailed (MaximumAllocationReached "AAPL") /\
   result_contracts (calculate_position_size exhausted 1 3 0.5 2.5) = 0%Z)
  /\
  (exists r,
      calculate_position_size tight 1 3 0.5 2.5 = SizingOk r /\
      available_allocation r = headroom_of tight (profile 20) account 3).
Proof.
  split.
  - apply (SizingProps.sizing_allocation_error exhausted 1 3 0.5 2.5
             {| user_id := 1; risk_profile := Some (profile 20) |}
             (profile 20) account aapl); try reflexivity.
    vm_compute. discriminate.
  - apply (SizingProps.sizing_allocation_error tight 1 3 0.5 2.5
             {| user_id := 1; risk_profile := Some (profile 20) |}
             (profile 20) account aapl); reflexivity.
Defined.

(** C3 at its failing input: headroom 40,000 is above the 33,000 floor, the
    132 contracts found before the adjustments fit it, and the fundamental
    adjustment 1.75 applied afterwards returns 231 contracts worth 57,750. *)
Theorem sizing_exceeds_headroom :
  exists r,
    calculate_position_size covered 1 3 0.5 2.5 = SizingOk r /\
    floor_of account <= available_allocation r /\
    available_allocation r == 40000 /\
    fundamental_adjustment r == 1.75 /\
    correlation_adjustment r == 1 /\
    contracts r = 231%Z /\
    inject_Z (contracts r) * contract_value r == 57750 /\
    available_allocation r < inject_Z (contracts r) * contract_value r.
Proof.
  eexists. split; [reflexivity|]. vm_compute. intuition congruence.
Qed.

End SizingChecks.

Module ExitProps.
Import RiskManagementService PyFacts.


(** *** The partial profit-taking ledger *)

Lemma total_after_add db e pid :
  ppt_position_id e = pid ->
  total_pct_taken (db_add db e) pid
  == total_pct_taken db pid + percentage_closed e.
Proof.
  intros He. unfold total_pct_taken, profit_taking_history, db_add.
  cbn [partial_profit_takings]. rewrite filter_app, map_app, sum_app.
  simpl. rewrite He, Z.eqb_refl. simpl. rewrite sum_cons.
  change (Py.sum []) with 0. lra.
Qed.

Lemma total_after_add_other db e pid :
  ppt_position_id e <> pid ->
  total_pct_taken (db_add db e) pid = total_pct_taken db pid.
Proof.
  intros He. unfold total_pct_taken, profit_taking_history, db_add.
  cbn [partial_profit_takings]. rewrite filter_app. simpl.
  apply Z.eqb_neq in He. rewrite He, app_nil_r. reflexivity.
Qed.

(** What one pass over the ladder does to the session: nothing, or one new
    ledger row for the position, no larger than what is left of it. *)
Lemma ladder_effect position pid profit total todo db :
  let db' := snd (ladder db position pid profit total todo) in
  db' = db \/
  exists e, db' = db_add db e /\ ppt_position_id e = pid /\
            percentage_closed e <= 1 - total.
Proof.
  induction todo as [|t rest IH]; simpl; [now left|].
  destruct (Py.leb (profit_pct t) profit && Py.ltb total (target_total t));
    [|exact IH].
  destruct (Py.ltb 0 (Py.min (target_total t - total) (1 - total)));
    [|exact IH].
  right. eexists. split; [reflexivity|]. split; [reflexivity|].
  simpl. apply min_le_r.
Qed.

Lemma call_preserves_cap db pid pid' profit :
  total_pct_taken db pid <= 1 ->
  total_pct_taken (snd (implement_partial_profit_taking db pid' profit)) pid <= 1.
Proof.
  intros Hcap. unfold implement_partial_profit_taking.
  destruct (query_position db pid') as [position|]; [|exact Hcap].
  destruct (ladder_effect position pid' profit (total_pct_taken db pid')
                          thresholds db) as [-> | (e & -> & He & Hle)];
    [exact Hcap|].
  destruct (Z.eq_dec pid' pid) as [<-|Hne].
  - rewrite total_after_add by exact He. lra.
  - rewrite total_after_add_other by congruence. exact Hcap.
Qed.

Lemma run_preserves_cap calls : forall db pid,
  total_pct_taken db pid <= 1 ->
  total_pct_taken (run_profit_taking db calls) pid <= 1.
Proof.
  induction calls as [|c calls IH]; intros db pid Hcap; [exact Hcap|].
  unfold run_profit_taking. simpl. apply IH.
  apply call_preserves_cap. exact Hcap.
Qed.

Lemma ladder_holds position pid profit total db todo :
  (forall t, In t todo -> profit_pct t <= profit -> target_total t <= total) ->
  ladder db position pid profit total todo
  = (ActionHold pid profit total, db).
Proof.
  induction todo as [|t rest IH]; intros Hrel; [reflexivity|].
  simpl. rewrite IH by (intros; apply Hrel; [right|]; assumption).
  destruct (Py.leb (profit_pct t) profit) eqn:Hreach; [|reflexivity].
  reflect_hyps. pose proof (Hrel t (or_introl eq_refl) Hreach) as Hdone.
  apply ltb_false in Hdone. rewrite Hdone. reflexivity.
Qed.

(** C4. From any ledger whose rows for a position sum to at most 1.0, any
    sequence of [implement_partial_profit_taking] calls, on any positions
    and at any profit levels, leaves that sum at most 1.0; and a call at a
    profit level whose reached thresholds have all been released returns
    the hold action and leaves the session as it was, so calling again
    changes nothing. *)
Theorem ladder_release_capped :
  (forall db calls pid,
      total_pct_taken db pid <= 1 ->
      total_pct_taken (run_profit_taking db calls) pid <= 1)
  /\
  (forall db pid profit position,
      query_position db pid = Some position ->
      all_released (total_pct_taken db pid) profit ->
      implement_partial_profit_taking db pid profit
      = (ActionHold pid profit (total_pct_taken db pid), db)
      /\ forall n, run_profit_taking db (repeat (pid, profit) n) = db).
Proof.
  split.
  - intros db calls pid. apply run_preserves_cap.
  - intros db pid profit position Hq Hrel.
    assert (implement_partial_profit_taking db pid profit
            = (ActionHold pid profit (total_pct_taken db pid), db)) as Hhold.
    { unfold implement_partial_profit_taking. rewrite Hq.
      apply ladder_holds. exact Hrel. }
    split; [exact Hhold|].
    induction n as [|n IH]; [reflexivity|].
    unfold run_profit_taking in *. simpl. rewrite Hhold. exact IH.
Qed.

End ExitProps.

Module ExitChecks.
Import RiskManagementService SizingExamples PyFacts.


(** The stops of that run: 10.5 at a 20% profit, 12 at a 40% profit. *)
Example trailing_stop_values :
  exists r1 r2,
    calculate_dynamic_take_profit (holding 12) 11 0.2 = Some r1 /\
    calculate_dynamic_take_profit (holding 14) 11 0.4 = Some r2 /\
    adjusted_stop_loss r1 == 10.5 /\ adjusted_stop_loss r2 == 12.
Proof.
  do 2 eexists. do 2 (split; [reflexivity|]). vm_compute. split; reflexivity.
Qed.

Lemma quarter_released_done :
  all_released (total_pct_taken quarter_released 11) 0.22.
Proof.
  intros t [<- | [<- | [<- | []]]] Hreach; vm_compute in Hreach |- *;
    solve [discriminate | exfalso; apply Hreach; reflexivity].
Defined.

Lemma ladder_release_capped_witness :
  total_pct_taken
    (run_profit_taking (holding 12.2) [(11%Z, 0.22); (11%Z, 0.55); (11%Z, 0.55);
                                       (11%Z, 0.55); (11%Z, 0.9)]) 11 <= 1
  /\ implement_partial_profit_taking quarter_released 11 0.22
     = (ActionHold 11 0.22 (total_pct_taken quarter_released 11),
        quarter_released)
  /\ run_profit_taking quarter_released (repeat (11%Z, 0.22) 3)
     = quarter_released.
Proof.
  split.
  - apply (proj1 ExitProps.ladder_release_capped). vm_compute. discriminate.
  - pose proof (proj2 ExitProps.ladder_release_capped quarter_released 11%Z 0.22
                      (long_position 12.2) eq_refl quarter_released_done)
      as [Hhold Hrun].
    split; [exact Hhold | exact (Hrun 3%nat)].
Defined.

(** Scenario D of the specification: 22% releases a quarter, 37% another
    quarter (half in total), and a retrace to 22% releases nothing. *)
Example scenario_D :
  let step1 := implement_partial_profit_taking (holding 12.2) 11 0.22 in
  let step2 := implement_partial_profit_taking (snd step1) 11 0.37 in
  let step3 := implement_partial_profit_taking (snd step2) 11 0.22 in
  (exists r, fst step1 = ActionPartialClose r /\
             percentage_to_close r == 0.25 /\ contracts_to_close r = 10%Z) /\
  (exists r, fst step2 = ActionPartialClose r /\
             percentage_to_close r == 0.25 /\
             pc_total_percentage_closed r == 0.5) /\
  (exists total, fst step3 = ActionHold 11 0.22 total /\ total == 0.5) /\
  snd step3 = snd step2.
Proof.
  cbv zeta. repeat split.
  - eexists. split; [reflexivity|]. vm_compute. split; reflexivity.
  - eexists. split; [reflexivity|]. vm_compute. split; reflexivity.
  - eexists. split; [reflexivity|]. vm_compute. reflexivity.
Qed.

End ExitChecks.

Module EnsembleProps.
Import Market EnsembleStrategy PyFacts.

(** *** Means stay between the extremes *)

Lemma len_cons {A} (x : A) xs : Py.len (x :: xs) == 1 + Py.len xs.
Proof.
  unfold Py.len. simpl List.length. rewrite Nat2Z.inj_succ.
  unfold Z.succ. rewrite inject_Z_plus. apply Qplus_comm.
Qed.

Lemma len_nonneg {A} (xs : list A) : 0 <= Py.len xs.
Proof.
  unfold Py.len. change 0 with (inject_Z 0). rewrite <- Zle_Qle. lia.
Qed.

Lemma sum_between lo hi xs :
  (forall x, In x xs -> lo <= x <= hi) ->
  lo * Py.len xs <= Py.sum xs <= hi * Py.len xs.
Proof.
  induction xs as [|x xs IH]; intros Hall.
  - change (Py.len (@nil Q)) with 0. change (Py.sum []) with 0. lra.
  - rewrite sum_cons, len_cons.
    destruct (Hall x (or_introl eq_refl)).
    destruct IH; [intros; apply Hall; now right|]. lra.
Qed.

Lemma mean_between lo hi x xs :
  (forall y, In y (x :: xs) -> lo <= y <= hi) ->
  lo <= Py.sum (x :: xs) / Py.len (x :: xs) <= hi.
Proof.
  intros Hall. destruct (sum_between lo hi (x :: xs) Hall) as [Hlo Hhi].
  assert (0 < Py.len (x :: xs)) as Hpos.
  { rewrite len_cons. pose proof (len_nonneg xs). lra. }
  split.
  - apply Qle_shift_div_l; assumption.
  - apply Qle_shift_div_r; assumption.
Qed.





(** *** The weights of the weighted variant are positive *)

Import WeightedEnsembleStrategy.







End EnsembleProps.

Module CycleProps.
Import Market EnsembleStrategy PyFacts.

Lemma bucket_adds self combine indicator instrument price type_ option_type_
      tf sf signals all_signals :
  let out := signals_of (bucket self combine indicator instrument price
                                type_ option_type_ tf sf signals all_signals) in
  out = all_signals \/
  exists s, out = all_signals ++ [s] /\ emitted self combine type_ signals s.
Proof.
  unfold bucket.
  destruct (Z.leb (min_strategies self) (Z.of_nat (List.length signals)))
           eqn:Hquorum; [|now left].
  destruct (combine signals) as [confidence|] eqn:Hcombine; [|now left].
  destruct (Py.leb (min_confidence self) confidence) eqn:Hconf; [|now left].
  destruct (find_atm_options _ _ _ _ _) as [atm|]; [|now left].
  unfold save_signal. destruct (commit _ _) as [k|]; [|now left].
  right. eexists. split; [reflexivity|].
  reflect_hyps. apply Z.leb_le in Hquorum.
  repeat split; simpl; assumption.
Qed.

Lemma cycle_emits self combine indicator instrument s :
  In s (cycle self combine indicator instrument) ->
  emitted self combine LONG_CALL (call_signals self instrument) s \/
  emitted self combine LONG_PUT (put_signals self instrument) s.
Proof.
  unfold cycle, call_signals, put_signals.
  destruct (current_price_of instrument) as [price|]; [|intros []].
  set (calls := fst _). set (puts := snd _).
  pose proof (bucket_adds self combine indicator instrument price
                          LONG_CALL call 1.05 0.97 calls []) as Hcall.
  destruct (bucket self combine indicator instrument price
                   LONG_CALL call 1.05 0.97 calls []) as [out1|out1];
    simpl in Hcall.
  - destruct Hcall as [-> | (s1 & -> & Hs1)]; [intros []|].
    intros [<-|[]]. now left.
  - pose proof (bucket_adds self combine indicator instrument price
                            LONG_PUT put 0.95 1.03 puts out1) as Hput.
    assert (forall out2, (out2 = out1 \/
                          exists s2, out2 = out1 ++ [s2] /\
                                     emitted self combine LONG_PUT puts s2) ->
                         In s out2 ->
                         emitted self combine LONG_CALL calls s \/
                         emitted self combine LONG_PUT puts s) as Hboth.
    { intros out2 [-> | (s2 & -> & Hs2)] Hin.
      - destruct Hcall as [-> | (s1 & -> & Hs1)]; [destruct Hin|].
        destruct Hin as [<-|[]]. now left.
      - apply in_app_or in Hin. destruct Hin as [Hin|[<-|[]]]; [|now right].
        destruct Hcall as [-> | (s1 & -> & Hs1)]; [destruct Hin|].
        destruct Hin as [<-|[]]. now left. }
    destruct (bucket self combine indicator instrument price
                     LONG_PUT put 0.95 1.03 puts out1) as [out2|out2];
      simpl in Hput; apply Hboth; exact Hput.
Qed.

Lemma no_quorum_no_signal self combine indicator instrument :
  ((Z.of_nat (List.length (call_signals self instrument))
    < min_strategies self)%Z ->
   forall s, In s (cycle self combine indicator instrument) ->
             signal_type (data s) <> LONG_CALL)
  /\
  ((Z.of_nat (List.length (put_signals self instrument))
    < min_strategies self)%Z ->
   forall s, In s (cycle self combine indicator instrument) ->
             signal_type (data s) <> LONG_PUT)
  /\
  ((Z.of_nat (List.length (call_signals self instrument))
    < min_strategies self)%Z ->
   (Z.of_nat (List.length (put_signals self instrument))
    < min_strategies self)%Z ->
   cycle self combine indicator instrument = []).
Proof.
  split; [|split].
  - intros Hfew s Hin Htype.
    destruct (cycle_emits _ _ _ _ _ Hin) as [(_ & _ & Hq & _)|(Hty & _)];
      [lia | congruence].
  - intros Hfew s Hin Htype.
    destruct (cycle_emits _ _ _ _ _ Hin) as [(Hty & _)|(_ & _ & Hq & _)];
      [congruence | lia].
  - intros Hcalls Hputs.
    destruct (cycle self combine indicator instrument) as [|s rest] eqn:Hout;
      [reflexivity|].
    assert (In s (cycle self combine indicator instrument)) as Hin
        by (rewrite Hout; now left).
    destruct (cycle_emits _ _ _ _ _ Hin) as [(_ & _ & Hq & _)|(_ & _ & Hq & _)];
      lia.
Qed.

(** C7. In a cycle of either ensemble, a direction whose bucket holds fewer
    than [min_strategies] candidate signals gets no combined signal; when
    both buckets are below the quorum the ensemble returns nothing. *)
Theorem ensemble_requires_quorum :
  forall self instrument,
    ((Z.of_nat (List.length (call_signals self instrument))
      < min_strategies self)%Z ->
     forall s,
       In s (EnsembleStrategy.generate_signals self instrument) \/
       In s (WeightedEnsembleStrategy.generate_signals self instrument) ->
       signal_type (data s) <> LONG_CALL)
    /\
    ((Z.of_nat (List.length (put_signals self instrument))
      < min_strategies self)%Z ->
     forall s,
       In s (EnsembleStrategy.generate_signals self instrument) \/
       In s (WeightedEnsembleStrategy.generate_signals self instrument) ->
       signal_type (data s) <> LONG_PUT)
    /\
    ((Z.of_nat (List.length (call_signals self instrument))
      < min_strategies self)%Z ->
     (Z.of_nat (List.length (put_signals self instrument))
      < min_strategies self)%Z ->
     EnsembleStrategy.generate_signals self instrument = [] /\
     WeightedEnsembleStrategy.generate_signals self instrument = []).
Proof.
  intros self instrument.
  unfold EnsembleStrategy.generate_signals,
    WeightedEnsembleStrategy.generate_signals.
  split; [|split].
  - intros Hfew s [Hin|Hin];
      eapply (proj1 (no_quorum_no_signal _ _ _ _)); eassumption.
  - intros Hfew s [Hin|Hin];
      eapply (proj1 (proj2 (no_quorum_no_signal _ _ _ _))); eassumption.
  - intros Hc Hp.
    split; apply (proj2 (proj2 (no_quorum_no_signal _ _ _ _))); assumption.
Qed.

(** Every combined signal carries the combined confidence of a bucket that
    met the quorum, at least [min_confidence]. *)
Lemma ensemble_signal_confidence self instrument s :
  In s (EnsembleStrategy.generate_signals self instrument) ->
  (signal_type (data s) = LONG_CALL /\
   average_confidence (call_signals self instrument)
   = Some (confidence_score (data s)))
  \/
  (signal_type (data s) = LONG_PUT /\
   average_confidence (put_signals self instrument)
   = Some (confidence_score (data s))).
Proof.
  intros Hin. destruct (cycle_emits _ _ _ _ _ Hin) as [H|H];
    [left|right]; destruct H as (? & ? & ? & ? & ?); split; assumption.
Qed.

(** *** A raising constituent *)



(** *** A missing call contract ends the cycle *)

Lemma call_lookup_failure_returns self combine indicator instrument price c :
  current_price_of instrument = Some price ->
  (min_strategies self
   <= Z.of_nat (List.length (call_signals self instrument)))%Z ->
  combine (call_signals self instrument) = Some c ->
  min_confidence self <= c ->
  find_atm_options (db self) (id instrument) price call 7 = None ->
  cycle self combine indicator instrument = [].
Proof.
  intros Hprice Hquorum Hcombine Hconf Hnone.
  unfold cycle, bucket, call_signals in *. rewrite Hprice.
  apply Z.leb_le in Hquorum. rewrite Hquorum, Hcombine.
  apply leb_true in Hconf. rewrite Hconf, Hnone. reflexivity.
Qed.

End CycleProps.

Module EarlyReturnProps.
Import Market EnsembleStrategy EnsembleExamples CycleProps.

(** C10. In either ensemble, when the call bucket meets the quorum and its
    combined confidence reaches [min_confidence] but no call contract is
    found, the cycle returns at once with nothing, so the put bucket is not
    looked at; and there is a cycle whose put bucket meets the quorum and
    [min_confidence] with a put contract listed, which emits the combined
    put signal when run on the put candidates alone, and which returns
    nothing only because the call lookup failed. *)
Theorem missing_call_contract_skips_puts :
  (forall self instrument price c,
      current_price_of instrument = Some price ->
      (min_strategies self
       <= Z.of_nat (List.length (call_signals self instrument)))%Z ->
      average_confidence (call_signals self instrument) = Some c ->
      min_confidence self <= c ->
      find_atm_options (db self) (id instrument) price call 7 = None ->
      EnsembleStrategy.generate_signals self instrument = [])
  /\
  (forall self instrument price,
      current_price_of instrument = Some price ->
      (min_strategies self
       <= Z.of_nat (List.length (call_signals self instrument)))%Z ->
      min_confidence self
      <= WeightedEnsembleStrategy.calculate_weighted_confidence
           (call_signals self instrument) ->
      find_atm_options (db self) (id instrument) price call 7 = None ->
      WeightedEnsembleStrategy.generate_signals self instrument = [])
  /\
  (exists self instrument,
      (min_strategies self
       <= Z.of_nat (List.length (put_signals self instrument)))%Z /\
      (exists c, average_confidence (put_signals self instrument) = Some c /\
                 min_confidence self <= c) /\
      min_confidence self
      <= WeightedEnsembleStrategy.calculate_weighted_confidence
           (put_signals self instrument) /\
      (exists atm, find_atm_options (db self) (id instrument) 100 put 7
                   = Some atm) /\
      (exists s, EnsembleStrategy.generate_signals
                   (with_strategies self puts_only) instrument = [s] /\
                 signal_type (data s) = LONG_PUT) /\
      (exists s, WeightedEnsembleStrategy.generate_signals
                   (with_strategies self puts_only) instrument = [s] /\
                 signal_type (data s) = LONG_PUT) /\
      EnsembleStrategy.generate_signals self instrument = [] /\
      WeightedEnsembleStrategy.generate_signals self instrument = []).
Proof.
  split; [|split].
  - intros self instrument price c Hprice Hquorum Havg Hconf Hnone.
    eapply call_lookup_failure_returns; eassumption.
  - intros self instrument price Hprice Hquorum Hconf Hnone.
    eapply call_lookup_failure_returns; try eassumption. reflexivity.
  - exists no_call_contract, msft.
    split; [vm_compute; discriminate|].
    split; [eexists; split; [reflexivity | vm_compute; discriminate]|].
    split; [vm_compute; discriminate|].
    split; [eexists; reflexivity|].
    split; [eexists; split; reflexivity|].
    split; [eexists; split; reflexivity|].
    split; reflexivity.
Qed.

End EarlyReturnProps.

Module EnsembleChecks.
Import Market EnsembleStrategy EnsembleExamples.

(** Scenario B of the specification: calls at 0.7 and 0.8 combine into one
    call at 0.75. *)
Example scenario_B :
  exists s, EnsembleStrategy.generate_signals scenario_b msft = [s] /\
            signal_type (data s) = LONG_CALL /\
            confidence_score (data s) == 0.75.
Proof. eexists. repeat split. Qed.

(** Scenario C of the specification: a lone call at 0.9 is not enough. *)
Example scenario_C :
  EnsembleStrategy.generate_signals scenario_c msft = [] /\
  WeightedEnsembleStrategy.generate_signals scenario_c msft = [].
Proof. split; reflexivity. Qed.

Lemma ensemble_requires_quorum_witness :
  (forall s,
      In s (EnsembleStrategy.generate_signals scenario_c msft) \/
      In s (WeightedEnsembleStrategy.generate_signals scenario_c msft) ->
      signal_type (data s) <> LONG_CALL)
  /\ EnsembleStrategy.generate_signals scenario_c msft = []
  /\ WeightedEnsembleStrategy.generate_signals scenario_c msft = [].
Proof.
  pose proof (CycleProps.ensemble_requires_quorum scenario_c msft)
    as (Hcall & _ & Hnone).
  assert ((Z.of_nat (List.length (call_signals scenario_c msft)) < 2)%Z)
    as Hc by (vm_compute; reflexivity).
  assert ((Z.of_nat (List.length (put_signals scenario_c msft)) < 2)%Z)
    as Hp by (vm_compute; reflexivity).
  split; [exact (Hcall Hc) | exact (Hnone Hc Hp)].
Defined.


(** The cycle with the raising strategy still combines the two others. *)
Example raising_strategy_output :
  exists s, EnsembleStrategy.generate_signals one_raises msft = [s] /\
            confidence_score (data s) == 0.75.
Proof. eexists. repeat split. Qed.

Lemma missing_call_contract_skips_puts_witness :
  EnsembleStrategy.generate_signals no_call_contract msft = [].
Proof.
  eapply (proj1 EarlyReturnProps.missing_call_contract_skips_puts
                no_call_contract msft 100).
  - reflexivity.
  - vm_compute. discriminate.
  - reflexivity.
  - vm_compute. discriminate.
  - reflexivity.
Defined.

End EnsembleChecks.

Module EarningsProps.
Import Market EarningsStrategy PyFacts.




(** The surprise trend the strategy computes for an instrument. *)
Abbreviation trend_of self instrument :=
  (calculate_earnings_surprise_trend
     (get_historical_earnings_surprises self instrument 4)).


End EarningsProps.

Module EarningsChecks.
Import Market EarningsStrategy EarningsExamples.



End EarningsChecks.

(** ** Further properties of the sizing *)

Module SizingMore.
Import RiskManagementService PyFacts.

(** Divisions by the constants of the services, as multiplications. *)
Ltac constant_divisions :=
  unfold Qdiv in *;
  change (/ 2) with (1 # 2) in *;
  change (/ 7) with (1 # 7) in *;
  change (/ 100) with (1 # 100) in *.

(** What a successful sizing was computed from. *)
Lemma sizing_ok_shape db uid iid conf option_price r :
  calculate_position_size db uid iid conf option_price = SizingOk r ->
  exists user profile portfolio instrument,
    query_user db uid = Some user /\
    risk_profile user = Some profile /\
    query_portfolio db uid = Some portfolio /\
    query_instrument db iid = Some instrument /\
    ~ option_price * 100 == 0 /\
    0 < headroom_of db profile portfolio iid /\
    contract_value r = option_price * 100 /\
    min_position_size r = floor_of portfolio /\
    available_allocation r = headroom_of db profile portfolio iid /\
    min_contracts r = Py.ceil (floor_of portfolio / (option_price * 100)) /\
    (min_contracts r <= contracts r)%Z /\
    position_value r = inject_Z (contracts r) * contract_value r.
Proof.
  unfold calculate_position_size.
  destruct (query_user db uid) as [user|] eqn:Hu; [|discriminate].
  destruct (risk_profile user) as [profile|] eqn:Hp; [|discriminate].
  destruct (query_portfolio db uid) as [portfolio|] eqn:Hpf; [|discriminate].
  destruct (query_instrument db iid) as [instrument|] eqn:Hi; [|discriminate].
  fold (floor_of portfolio). fold (headroom_of db profile portfolio iid).
  destruct (Qeq_bool (option_price * 100) 0) eqn:Hz; [discriminate|].
  destruct (Py.leb (headroom_of db profile portfolio iid) 0) eqn:Ha;
    [discriminate|].
  reflect_hyps. intros H.
  exists user, profile, portfolio, instrument.
  do 6 (split; [first [reflexivity | assumption]|]).
  repeat match type of H with
         | context [if ?b then _ else _] => destruct b
         end.
  all: injection H as <-; cbn; repeat split; apply Z.le_max_l.
Qed.

Lemma sizing_succeeds db uid iid conf option_price user profile portfolio
      instrument :
  query_user db uid = Some user ->
  risk_profile user = Some profile ->
  query_portfolio db uid = Some portfolio ->
  query_instrument db iid = Some instrument ->
  ~ option_price * 100 == 0 ->
  0 < headroom_of db profile portfolio iid ->
  exists r, calculate_position_size db uid iid conf option_price = SizingOk r.
Proof.
  intros Hu Hp Hpf Hi Hz Ha.
  unfold calculate_position_size. rewrite Hu, Hp, Hpf, Hi.
  fold (floor_of portfolio). fold (headroom_of db profile portfolio iid).
  apply eqb_false in Hz. rewrite Hz.
  apply leb_false in Ha. rewrite Ha.
  repeat match goal with
         | |- context [if ?b then _ else _] => destruct b
         end.
  all: eexists; reflexivity.
Qed.

Lemma sizing_count_positive db uid iid conf option_price r :
  0 < option_price ->
  calculate_position_size db uid iid conf option_price = SizingOk r ->
  (1 <= min_contracts r <= contracts r)%Z.
Proof.
  intros Hprice Hok.
  destruct (sizing_ok_shape _ _ _ _ _ _ Hok)
    as (user & profile & portfolio & instrument & _ & _ & _ & _ & _ & _
        & _ & _ & _ & Hmin & Hle & _).
  pose proof (SizingProps.floor_positive portfolio) as Hbig.
  assert (0 < floor_of portfolio / (option_price * 100)) as Hq
      by (apply Qlt_shift_div_l; lra).
  pose proof (ceil_pos _ Hq) as Hpos.
  rewrite Hmin in *. lia.
Qed.


(** X2. At a positive option price the sizing answers with zero contracts
    exactly when a lookup fails (user, risk profile, portfolio, instrument)
    or the allocation headroom is not positive. *)
Theorem sizing_zero_iff_refused :
  forall db uid iid conf option_price,
    0 < option_price ->
    (result_contracts (calculate_position_size db uid iid conf option_price)
     = 0%Z
     <->
     ~ exists user profile portfolio instrument,
         query_user db uid = Some user /\
         risk_profile user = Some profile /\
         query_portfolio db uid = Some portfolio /\
         query_instrument db iid = Some instrument /\
         0 < headroom_of db profile portfolio iid).
Proof.
  intros db uid iid conf option_price Hprice. split.
  - intros Hzero (user & profile & portfolio & instrument
                  & Hu & Hp & Hpf & Hi & Ha).
    destruct (sizing_succeeds db uid iid conf option_price _ _ _ _
                              Hu Hp Hpf Hi ltac:(lra) Ha) as [r Hr].
    rewrite Hr in Hzero. simpl in Hzero.
    pose proof (sizing_count_positive _ _ _ _ _ _ Hprice Hr) as Hone.
    lia.
  - intros Hnone.
    destruct (calculate_position_size db uid iid conf option_price)
      as [e|r] eqn:Hres; [reflexivity|].
    exfalso. apply Hnone.
    destruct (sizing_ok_shape _ _ _ _ _ _ Hres)
      as (user & profile & portfolio & instrument & Hu & Hp & Hpf & Hi & _
          & Ha & _).
    exists user, profile, portfolio, instrument. repeat split; assumption.
Qed.


End SizingMore.

(** ** The plain risk-based sizing *)

Module PlainSizingProps.
Import RiskManagementService PlainSizing PyFacts.

Lemma int_of_nonneg x :
  0 <= x -> (0 <= Py.int x)%Z /\ inject_Z (Py.int x) <= x.
Proof.
  intros Hx. unfold Py.int. apply leb_true in Hx. rewrite Hx.
  apply leb_true in Hx. split; [|apply Qfloor_le].
  change 0%Z with (Qfloor 0). apply Qfloor_resp_le. exact Hx.
Qed.

Lemma budget_covers_count budget cv :
  0 < cv -> 0 <= budget ->
  (0 <= Py.int (budget / cv))%Z /\ inject_Z (Py.int (budget / cv)) * cv <= budget.
Proof.
  intros Hcv Hb.
  assert (0 <= budget / cv) as Hq by (apply Qle_shift_div_l; lra).
  destruct (int_of_nonneg _ Hq) as [H0 Hle]. split; [exact H0|].
  assert (budget == budget / cv * cv) as Heq by (field; lra).
  rewrite Heq at 2. apply Qmult_le_compat_r; lra.
Qed.

(** X5. The plain sizing of [risk_management_service.py], at a positive
    option price and with a non-negative risk budget, never spends more
    than it may: the count is not negative, its value stays within the
    reported [max_capital], and [max_capital] is within both the
    confidence-adjusted risk budget and the allocation headroom. *)
Theorem plain_sizing_within_limits :
  forall db uid iid conf option_price r,
    0 < option_price ->
    PlainSizing.calculate_position_size db uid iid conf option_price = Ok r ->
    0 <= plain_risk_per_trade r ->
    (0 <= plain_contracts r)%Z /\
    inject_Z (plain_contracts r) * plain_contract_value r
    <= plain_max_capital r /\
    plain_max_capital r <= plain_risk_per_trade r /\
    plain_max_capital r <= plain_available_allocation r /\
    0 < plain_available_allocation r.
Proof.
  intros db uid iid conf option_price r Hprice.
  unfold PlainSizing.calculate_position_size.
  destruct (query_user db uid) as [user|]; [|discriminate].
  destruct (risk_profile user) as [profile|]; [|discriminate].
  destruct (query_portfolio db uid) as [portfolio|]; [|discriminate].
  destruct (query_instrument db iid) as [instrument|]; [|discriminate].
  destruct (Qeq_bool (option_price * 100) 0); [discriminate|].
  fold (headroom_of db profile portfolio iid).
  destruct (Py.leb (headroom_of db profile portfolio iid) 0) eqn:Ha;
    [discriminate|].
  set (budget := total_value portfolio * (max_portfolio_risk profile / 100)
                 * (0.5 + conf)).
  destruct (Py.ltb (headroom_of db profile portfolio iid) budget) eqn:Hclamp;
    destruct (Z.ltb (Py.int (budget / (option_price * 100))) 1
              && Py.leb (option_price * 100) budget) eqn:Hone;
    intros H; injection H as <-; cbn; intros Hbudget; reflect_hyps.
  - destruct (budget_covers_count (headroom_of db profile portfolio iid)
                                  (option_price * 100)); [lra | lra |].
    repeat split; try assumption; lra.
  - destruct (budget_covers_count (headroom_of db profile portfolio iid)
                                  (option_price * 100)); [lra | lra |].
    repeat split; try assumption; lra.
  - change (inject_Z 1) with 1. repeat split; try lra. lia.
  - destruct (budget_covers_count budget (option_price * 100));
      [lra | lra |].
    repeat split; try assumption; lra.
Qed.

End PlainSizingProps.

(** ** Stops, targets and the de-rated ladder *)

Module ExitPlanningProps.
Import RiskManagementService ExitPlanning PyFacts.

Ltac constant_divisions :=
  unfold Qdiv in *;
  change (/ 2) with (1 # 2) in *;
  change (/ 7) with (1 # 7) in *;
  change (/ 100) with (1 # 100) in *.

Lemma some_eq {A} (x y : A) : Some x = Some y -> x = y.
Proof. congruence. Qed.

Lemma risk_pct_range risk_level : 0.10 <= risk_pct_of risk_level <= 0.20.
Proof.
  unfold risk_pct_of, risk_levels. simpl.
  repeat match goal with
         | |- context [if ?b then _ else _] => destruct b
         end; simpl; split; vm_compute; discriminate.
Qed.



(** X7. The stop tightens as expiration nears: with fewer days left the
    stop-loss is not lower and the take-profit not higher; from 7 days on
    the full risk percentage of the level applies, and at 0 days stop-loss
    and take-profit both sit on the entry price. *)
Theorem stop_tightens_toward_expiry :
  forall position_id entry_price risk_level,
    0 <= entry_price ->
    (forall days1 days2,
        (days1 <= days2)%Z ->
        sltp_stop_loss_price
          (calculate_stop_loss_take_profit position_id entry_price days2
                                           risk_level)
        <= sltp_stop_loss_price
             (calculate_stop_loss_take_profit position_id entry_price days1
                                              risk_level)
        /\
        sltp_take_profit_price
          (calculate_stop_loss_take_profit position_id entry_price days1
                                           risk_level)
        <= sltp_take_profit_price
             (calculate_stop_loss_take_profit position_id entry_price days2
                                              risk_level))
    /\
    (forall days,
        (7 <= days)%Z ->
        sltp_risk_percentage
          (calculate_stop_loss_take_profit position_id entry_price days
                                           risk_level)
        == risk_pct_of risk_level)
    /\
    sltp_stop_loss_price
      (calculate_stop_loss_take_profit position_id entry_price 0 risk_level)
    == entry_price
    /\
    sltp_take_profit_price
      (calculate_stop_loss_take_profit position_id entry_price 0 risk_level)
    == entry_price.
Proof.
  intros position_id entry_price risk_level Hentry.
  pose proof (risk_pct_range risk_level) as [Hlo Hhi].
  unfold calculate_stop_loss_take_profit. cbn.
  set (pct := risk_pct_of risk_level) in *.
  split; [|split; [|split]].
  - intros days1 days2 Hle.
    assert (inject_Z days1 <= inject_Z days2) as Hq
        by (rewrite <- Zle_Qle; exact Hle).
    assert (Py.min 1 (inject_Z days1 / 7) <= Py.min 1 (inject_Z days2 / 7))
      as Hf.
    { destruct (min_spec 1 (inject_Z days1 / 7)) as [[? ->]|[? ->]];
        destruct (min_spec 1 (inject_Z days2 / 7)) as [[? ->]|[? ->]];
        constant_divisions; lra. }
    set (f1 := Py.min 1 (inject_Z days1 / 7)) in *.
    set (f2 := Py.min 1 (inject_Z days2 / 7)) in *.
    assert (pct * f1 <= pct * f2) as Hp by (apply Qmult_le_l; lra).
    assert (entry_price * (pct * f1) <= entry_price * (pct * f2)) as He.
    { destruct (Qeq_dec entry_price 0) as [Hz|Hnz].
      - rewrite Hz. lra.
      - apply Qmult_le_l; [|exact Hp].
        destruct (Qle_lt_or_eq _ _ Hentry) as [?|Heq];
          [assumption | symmetry in Heq; contradiction]. }
    split; lra.
  - intros days Hdays.
    assert (7 <= inject_Z days) as Hq
        by (change 7 with (inject_Z 7); rewrite <- Zle_Qle; exact Hdays).
    destruct (min_spec 1 (inject_Z days / 7)) as [[? ->]|[Hc ->]]; [|lra].
    constant_divisions. lra.
  - assert (Py.min 1 (inject_Z 0 / 7) == 0) as -> by reflexivity. lra.
  - assert (Py.min 1 (inject_Z 0 / 7) == 0) as -> by reflexivity. lra.
Qed.

(** X8. The dynamic take-profit is the entry price plus the initial risk
    times a reward ratio of 1.5, 2 or 3; it is never below the entry price
    and, for one position, never decreases as the profit percentage grows. *)
Theorem dynamic_take_profit_grows :
  forall db pid profit1 profit2 r1 r2,
    profit1 <= profit2 ->
    calculate_dynamic_take_profit db pid profit1 = Some r1 ->
    calculate_dynamic_take_profit db pid profit2 = Some r2 ->
    In (risk_reward_ratio r1) [1.5; 2; 3] /\
    take_profit_price r1
    = dtp_entry_price r1 + initial_risk r1 * risk_reward_ratio r1 /\
    0 <= initial_risk r1 /\
    dtp_entry_price r1 <= take_profit_price r1 /\
    take_profit_price r1 <= take_profit_price r2.
Proof.
  intros db pid profit1 profit2 r1 r2 Hle.
  unfold calculate_dynamic_take_profit.
  destruct (query_position db pid) as [position|]; [|discriminate].
  intros H1 H2. apply some_eq in H1. apply some_eq in H2. subst r1 r2.
  cbv beta iota delta [risk_reward_ratio take_profit_price dtp_entry_price
                       initial_risk].
  match goal with |- context [Qabs ?x] => set (risk := Qabs x) end.
  assert (0 <= risk) as Hrisk by apply Qabs_nonneg.
  destruct (Py.ltb profit1 0.15) eqn:A1; destruct (Py.ltb profit1 0.30) eqn:B1;
    destruct (Py.ltb profit2 0.15) eqn:A2; destruct (Py.ltb profit2 0.30) eqn:B2;
    reflect_hyps; try lra.
  all: repeat split; try (simpl; tauto); lra.
Qed.

(** X9. [adjust_take_profit_for_dte] never raises a ladder threshold: it
    returns three thresholds whose released fractions are the base ones,
    whose profit levels lie between 40% and 100% of the base levels and
    stay strictly increasing, and which are the base thresholds themselves
    with more than 5 days left. *)
Theorem derated_ladder_is_lower :
  forall db expiration_date pid r,
    adjust_take_profit_for_dte db expiration_date pid = Some r ->
    dte_base_thresholds r = base_thresholds /\
    List.length (adjusted_thresholds r) = 3%nat /\
    increasing (adjusted_thresholds r) /\
    Forall2 (fun a b => take_pct a = take_pct b /\
                        profit_pct b * 0.4 <= profit_pct a <= profit_pct b)
            (adjusted_thresholds r) base_thresholds /\
    ((5 < dte_days_to_expiration r)%Z ->
     adjusted_thresholds r = base_thresholds).
Proof.
  intros db expiration_date pid r. unfold adjust_take_profit_for_dte.
  destruct (query_position db pid) as [position|]; [|discriminate].
  intros H. injection H as <-. cbn [dte_base_thresholds adjusted_thresholds
                                    dte_days_to_expiration].
  set (days := (expiration_date position - Market.date_of (utcnow db))%Z).
  split; [reflexivity|]. split; [reflexivity|].
  unfold base_thresholds, adjusted_threshold. cbn [map].
  destruct (Z.leb days 1) eqn:H1; [|destruct (Z.leb days 2) eqn:H2;
    [|destruct (Z.leb days 3) eqn:H3; [|destruct (Z.leb days 5) eqn:H5]]].
  all: split; [cbn; repeat split; vm_compute; reflexivity|].
  all: split; [repeat constructor; cbn; vm_compute; discriminate|].
  all: intros Hlate.
  all: try (apply Z.leb_le in H1; lia).
  all: try (apply Z.leb_le in H2; lia).
  all: try (apply Z.leb_le in H3; lia).
  all: try (apply Z.leb_le in H5; lia).
  reflexivity.
Qed.

(** X10. The fewer days are left, the lower the de-rated ladder: of two
    evaluations the one with no more days to expiration has no higher
    profit level at any step. *)
Theorem derating_follows_days :
  forall db1 db2 expiration1 expiration2 pid1 pid2 r1 r2,
    adjust_take_profit_for_dte db1 expiration1 pid1 = Some r1 ->
    adjust_take_profit_for_dte db2 expiration2 pid2 = Some r2 ->
    (dte_days_to_expiration r1 <= dte_days_to_expiration r2)%Z ->
    Forall2 (fun a b => profit_pct a <= profit_pct b)
            (adjusted_thresholds r1) (adjusted_thresholds r2).
Proof.
  intros db1 db2 expiration1 expiration2 pid1 pid2 r1 r2.
  unfold adjust_take_profit_for_dte.
  destruct (query_position db1 pid1) as [p1|]; [|discriminate].
  destruct (query_position db2 pid2) as [p2|]; [|discriminate].
  intros H1 H2. injection H1 as <-. injection H2 as <-.
  cbn [dte_days_to_expiration adjusted_thresholds].
  set (d1 := (expiration1 p1 - Market.date_of (utcnow db1))%Z).
  set (d2 := (expiration2 p2 - Market.date_of (utcnow db2))%Z).
  intros Hle. unfold base_thresholds, adjusted_threshold. cbn [map].
  destruct (Z.leb d1 1) eqn:A1; destruct (Z.leb d1 2) eqn:A2;
    destruct (Z.leb d1 3) eqn:A3; destruct (Z.leb d1 5) eqn:A5;
    destruct (Z.leb d2 1) eqn:B1; destruct (Z.leb d2 2) eqn:B2;
    destruct (Z.leb d2 3) eqn:B3; destruct (Z.leb d2 5) eqn:B5;
    try (repeat constructor; cbn; vm_compute; discriminate).
  all: exfalso.
  all: repeat match goal with
              | H : Z.leb _ _ = true |- _ => apply Z.leb_le in H
              | H : Z.leb _ _ = false |- _ => apply Z.leb_gt in H
              end; lia.
Qed.

End ExitPlanningProps.

(** ** Further properties of the partial profit-taking ladder *)

Module LadderMore.
Import RiskManagementService PyFacts.

Lemma threshold_facts t :
  In t thresholds ->
  0.20 <= profit_pct t /\
  (target_total t == 0.25 \/ target_total t == 0.5 \/ target_total t == 0.75).
Proof.
  intros [<- | [<- | [<- | []]]]; (split; [vm_compute; discriminate|]).
  - left. reflexivity.
  - right. left. reflexivity.
  - right. right. reflexivity.
Qed.

Lemma target_at_most t : In t thresholds -> 0.25 <= target_total t <= 0.75.
Proof.
  intros Hin. destruct (threshold_facts t Hin) as [_ [H|[H|H]]];
    rewrite H; split; vm_compute; discriminate.
Qed.

(** What the loop does over the thresholds still to visit. *)
Lemma ladder_cases position pid profit total db todo :
  (forall t, In t todo -> In t thresholds) ->
  (ladder db position pid profit total todo = (ActionHold pid profit total, db)
   /\ forall t, In t todo -> profit_pct t <= profit -> target_total t <= total)
  \/
  (exists t r e,
      In t todo /\ profit_pct t <= profit /\ total < target_total t /\
      ladder db position pid profit total todo
      = (ActionPartialClose r, db_add db e) /\
      ppt_position_id e = pid /\
      percentage_closed e == target_total t - total /\
      percentage_to_close r = percentage_closed e /\
      threshold_triggered r = profit_pct t /\
      pc_total_percentage_closed r = total + percentage_closed e /\
      contracts_to_close r
      = Py.int (inject_Z (quantity position) * percentage_closed e)).
Proof.
  induction todo as [|t rest IH]; intros Hsub.
  - left. split; [reflexivity | intros t []].
  - simpl.
    destruct (Py.leb (profit_pct t) profit
              && Py.ltb total (target_total t)) eqn:Hfire.
    + right. reflect_hyps.
      destruct (target_at_most t (Hsub t (or_introl eq_refl))) as [_ Hcap].
      assert (Py.min (target_total t - total) (1 - total)
              = target_total t - total) as Hmin.
      { destruct (min_spec (target_total t - total) (1 - total))
          as [[? _]|[_ ->]]; [lra | reflexivity]. }
      rewrite Hmin.
      assert (Py.ltb 0 (target_total t - total) = true) as ->
          by (apply ltb_true; lra).
      exists t. do 2 eexists.
      split; [now left|]. split; [assumption|]. split; [assumption|].
      split; [reflexivity|]. cbn. repeat split.
    + destruct (IH (fun u Hu => Hsub u (or_intror Hu)))
        as [[Hhold Hrel] | (u & r & e & Hin & Hrest)].
      * left. split; [exact Hhold|].
        intros u [<-|Hin] Hreach; [|now apply Hrel].
        apply andb_false_iff in Hfire. destruct Hfire as [Hf|Hf].
        -- apply leb_false in Hf. lra.
        -- apply ltb_false in Hf. exact Hf.
      * right. exists u, r, e. split; [now right | exact Hrest].
Qed.

(** One call on an existing position: it holds with everything reached
    already released, or it releases up to the cumulative target of a
    reached threshold. *)
Lemma call_outcome db pid profit position :
  query_position db pid = Some position ->
  (implement_partial_profit_taking db pid profit
   = (ActionHold pid profit (total_pct_taken db pid), db)
   /\ all_released (total_pct_taken db pid) profit)
  \/
  (exists t r e,
      In t thresholds /\ profit_pct t <= profit /\
      total_pct_taken db pid < target_total t /\
      implement_partial_profit_taking db pid profit
      = (ActionPartialClose r, db_add db e) /\
      ppt_position_id e = pid /\
      percentage_closed e == target_total t - total_pct_taken db pid /\
      percentage_to_close r = percentage_closed e /\
      threshold_triggered r = profit_pct t /\
      pc_total_percentage_closed r
      = total_pct_taken db pid + percentage_closed e /\
      contracts_to_close r
      = Py.int (inject_Z (quantity position) * percentage_closed e)).
Proof.
  intros Hq. unfold implement_partial_profit_taking. rewrite Hq.
  apply ladder_cases. auto.
Qed.

Lemma add_keeps_positions db e pid :
  query_position (db_add db e) pid = query_position db pid.
Proof. reflexivity. Qed.

Lemma call_keeps_positions db pid profit :
  positions (snd (implement_partial_profit_taking db pid profit))
  = positions db.
Proof.
  unfold implement_partial_profit_taking.
  destruct (query_position db pid) as [position|]; [|reflexivity].
  destruct (ExitProps.ladder_effect position pid profit
                                    (total_pct_taken db pid) thresholds db)
    as [-> | (e & -> & _)]; reflexivity.
Qed.

(** X11. The ladder never releases more than three quarters of a position:
    from a ledger whose rows for the position sum to at most 0.75, any
    sequence of calls leaves the sum at most 0.75. *)
Theorem ladder_keeps_a_quarter :
  forall calls db pid,
    total_pct_taken db pid <= 0.75 ->
    total_pct_taken (run_profit_taking db calls) pid <= 0.75.
Proof.
  induction calls as [|[pid' profit] calls IH]; intros db pid Hcap;
    [exact Hcap|].
  unfold run_profit_taking. simpl. apply IH. clear IH.
  destruct (query_position db pid') as [position|] eqn:Hq.
  2:{ unfold implement_partial_profit_taking. rewrite Hq. exact Hcap. }
  destruct (call_outcome db pid' profit position Hq)
    as [[-> _] | (t & r & e & Hin & _ & _ & -> & He & Hpct & _)];
    [exact Hcap|].
  cbn [snd]. destruct (Z.eq_dec pid' pid) as [<-|Hne].
  - rewrite ExitProps.total_after_add by exact He.
    destruct (target_at_most t Hin). rewrite Hpct. lra.
  - rewrite ExitProps.total_after_add_other by congruence. exact Hcap.
Qed.

(** X12. Below a 20% profit nothing is released: the session is unchanged
    and, when the position exists, the answer is the hold action. *)
Theorem no_release_below_first_threshold :
  forall db pid profit,
    profit < 0.20 ->
    snd (implement_partial_profit_taking db pid profit) = db /\
    (forall position,
        query_position db pid = Some position ->
        fst (implement_partial_profit_taking db pid profit)
        = ActionHold pid profit (total_pct_taken db pid)).
Proof.
  intros db pid profit Hlow.
  assert (forall position,
             query_position db pid = Some position ->
             implement_partial_profit_taking db pid profit
             = (ActionHold pid profit (total_pct_taken db pid), db)) as Hhold.
  { intros position Hq. unfold implement_partial_profit_taking. rewrite Hq.
    apply ExitProps.ladder_holds. intros t Hin Hreach.
    destruct (threshold_facts t Hin) as [Hmin _]. lra. }
  split.
  - destruct (query_position db pid) as [position|] eqn:Hq.
    + now rewrite (Hhold position).
    + unfold implement_partial_profit_taking. now rewrite Hq.
  - intros position Hq. now rewrite (Hhold position Hq).
Qed.

(** X13. A call only ever appends to the ledger: the other tables are
    untouched, the earlier rows stay in place followed by at most one new
    row, which belongs to the position of the call, and the sums of all
    other positions are unchanged. *)
Theorem ledger_is_append_only :
  forall db pid profit,
    let db' := snd (implement_partial_profit_taking db pid profit) in
    positions db' = positions db /\
    users db' = users db /\
    portfolios db' = portfolios db /\
    instruments db' = instruments db /\
    (exists rows,
        partial_profit_takings db' = partial_profit_takings db ++ rows /\
        (List.length rows <= 1)%nat /\
        forall e, In e rows -> ppt_position_id e = pid) /\
    (forall other, other <> pid ->
                   total_pct_taken db' other = total_pct_taken db other).
Proof.
  intros db pid profit db'. unfold db', implement_partial_profit_taking.
  destruct (query_position db pid) as [position|].
  2:{ cbn [snd]. repeat split.
      exists []. rewrite app_nil_r. repeat split; [simpl; lia | intros e []]. }
  destruct (ExitProps.ladder_effect position pid profit
                                    (total_pct_taken db pid) thresholds db)
    as [-> | (e & -> & He & _)].
  - repeat split.
    exists []. rewrite app_nil_r. repeat split; [simpl; lia | intros e []].
  - repeat split.
    + exists [e]. repeat split; [simpl; lia|].
      intros e' [<-|[]]. exact He.
    + intros other Hne. apply ExitProps.total_after_add_other. congruence.
Qed.

(** X14. For an existing position the call holds exactly when every
    threshold reached at the profit level has been released; otherwise it
    closes a positive fraction that brings the cumulative release exactly to
    the cumulative target (0.25, 0.5 or 0.75) of a reached threshold, reports
    that total, and asks to close int(quantity * fraction) contracts. *)
Theorem release_lands_on_target :
  forall db pid profit position,
    query_position db pid = Some position ->
    let res := implement_partial_profit_taking db pid profit in
    (fst res = ActionHold pid profit (total_pct_taken db pid)
     <-> all_released (total_pct_taken db pid) profit)
    /\
    (forall r,
        fst res = ActionPartialClose r ->
        0 < percentage_to_close r /\
        contracts_to_close r
        = Py.int (inject_Z (quantity position) * percentage_to_close r) /\
        pc_total_percentage_closed r == total_pct_taken (snd res) pid /\
        exists t,
          In t thresholds /\ threshold_triggered r = profit_pct t /\
          profit_pct t <= profit /\
          total_pct_taken (snd res) pid == target_total t).
Proof.
  intros db pid profit position Hq res. unfold res.
  destruct (call_outcome db pid profit position Hq)
    as [[-> Hrel] | (t & r & e & Hin & Hreach & Hlow & -> & He & Hpct
                     & Hclose & Htrig & Htotal & Hcontracts)]; cbn [fst snd].
  - split; [tauto|]. intros r Hr. discriminate.
  - split.
    + split; [discriminate|]. intros Hrel.
      specialize (Hrel t Hin Hreach). lra.
    + intros r' Hr. assert (r' = r) as -> by congruence.
      pose proof (ExitProps.total_after_add db e pid He) as Hadd.
      split; [rewrite Hclose; lra|].
      split; [rewrite Hclose; exact Hcontracts|].
      split; [rewrite Htotal; lra|].
      exists t. repeat split; try assumption. lra.
Qed.

(** X15. Three calls at one profit level always reach the fixed point: for
    an existing position, after three calls everything reached at that level
    has been released, so every later call at the level holds. *)
Theorem ladder_settles_in_three_calls :
  forall db pid profit position,
    query_position db pid = Some position ->
    let db3 := run_profit_taking db [(pid, profit); (pid, profit); (pid, profit)] in
    all_released (total_pct_taken db3 pid) profit /\
    implement_partial_profit_taking db3 pid profit
    = (ActionHold pid profit (total_pct_taken db3 pid), db3).
Proof.
  intros db pid profit position Hq db3.
  assert (forall d, query_position d pid = Some position ->
                    all_released (total_pct_taken d pid) profit ->
                    implement_partial_profit_taking d pid profit
                    = (ActionHold pid profit (total_pct_taken d pid), d))
    as Hstay.
  { intros d Hd Hrel. unfold implement_partial_profit_taking. rewrite Hd.
    apply ExitProps.ladder_holds. exact Hrel. }
  assert (all_released (total_pct_taken db3 pid) profit) as Hdone.
  { unfold db3, run_profit_taking. cbn [fold_left fst snd].
    destruct (call_outcome db pid profit position Hq)
      as [[H1 R1] | (t1 & r1 & e1 & In1 & _ & Low1 & H1 & E1 & P1 & _)].
    { rewrite H1. cbn [snd]. rewrite H1. cbn [snd]. rewrite H1. exact R1. }
    rewrite H1. cbn [snd].
    assert (total_pct_taken (db_add db e1) pid == target_total t1) as S1
        by (rewrite ExitProps.total_after_add by exact E1; rewrite P1; lra).
    destruct (call_outcome (db_add db e1) pid profit position Hq)
      as [[H2 R2] | (t2 & r2 & e2 & In2 & _ & Low2 & H2 & E2 & P2 & _)].
    { rewrite H2. cbn [snd]. rewrite H2. exact R2. }
    rewrite H2. cbn [snd].
    assert (total_pct_taken (db_add (db_add db e1) e2) pid == target_total t2)
      as S2 by (rewrite ExitProps.total_after_add by exact E2; rewrite P2; lra).
    destruct (call_outcome (db_add (db_add db e1) e2) pid profit position Hq)
      as [[H3 R3] | (t3 & r3 & e3 & In3 & _ & Low3 & H3 & E3 & P3 & _)].
    { rewrite H3. exact R3. }
    rewrite H3. cbn [snd].
    assert (total_pct_taken (db_add (db_add (db_add db e1) e2) e3) pid
            == target_total t3) as S3
        by (rewrite ExitProps.total_after_add by exact E3; rewrite P3; lra).
    intros t Hin _. rewrite S3.
    destruct (target_at_most t Hin) as [_ Hcap].
    destruct (threshold_facts t1 In1) as [_ V1].
    destruct (threshold_facts t2 In2) as [_ V2].
    destruct (threshold_facts t3 In3) as [_ V3].
    rewrite S1 in Low2. rewrite S2 in Low3.
    destruct V1 as [V1|[V1|V1]]; destruct V2 as [V2|[V2|V2]];
      destruct V3 as [V3|[V3|V3]]; rewrite V1, V2 in *; rewrite ?V3 in *; lra. }
  split; [exact Hdone|]. apply Hstay; [|exact Hdone].
  unfold db3, run_profit_taking. cbn [fold_left fst snd].
  unfold query_position in *.
  rewrite !call_keeps_positions. exact Hq.
Qed.

End LadderMore.

(** ** Portfolio risk metrics *)

Module MetricsProps.
Import RiskManagementService ExitPlanning PyFacts.

Lemma dict_add_sum d k v :
  Py.sum (map snd (dict_add d k v)) == Py.sum (map snd d) + v.
Proof.
  induction d as [|[k' v'] rest IH]; simpl.
  - rewrite sum_cons. change (Py.sum []) with 0. lra.
  - destruct (String.eqb k' k); simpl; rewrite !sum_cons; [lra|].
    rewrite IH. lra.
Qed.

Lemma dict_add_keys d k v :
  forall k0, In k0 (map fst (dict_add d k v)) <-> k0 = k \/ In k0 (map fst d).
Proof.
  induction d as [|[k' v'] rest IH]; intros k0; simpl.
  - intuition congruence.
  - destruct (String.eqb k' k) eqn:Heq; simpl.
    + apply String.eqb_eq in Heq. subst. intuition congruence.
    + rewrite IH. intuition congruence.
Qed.

Lemma dict_add_nodup d k v :
  NoDup (map fst d) -> NoDup (map fst (dict_add d k v)).
Proof.
  induction d as [|[k' v'] rest IH]; intros Hnd; simpl.
  - constructor; [intros [] | constructor].
  - destruct (String.eqb k' k) eqn:Heq; simpl; [exact Hnd|].
    inversion Hnd as [|? ? Hnotin Hrest]; subst.
    constructor; [|now apply IH].
    rewrite dict_add_keys. intros [->|Hin]; [|contradiction].
    rewrite String.eqb_refl in Heq. discriminate.
Qed.

Lemma dict_add_nonempty d k v : dict_add d k v <> [].
Proof. destruct d as [|[k' v'] rest]; simpl; [|destruct (String.eqb k' k)]; discriminate. Qed.

(** The exposure loop from any accumulated dictionary. *)
Lemma exposure_loop db active : forall acc,
  let step := fun exposure position =>
                match query_instrument db (position_instrument_id position) with
                | Some instrument =>
                  dict_add exposure (symbol instrument) (current_value position)
                | None => exposure
                end in
  (NoDup (map fst acc) -> NoDup (map fst (fold_left step active acc))) /\
  ((forall p, In p active ->
              query_instrument db (position_instrument_id p) <> None) ->
   Py.sum (map snd (fold_left step active acc))
   == Py.sum (map snd acc) + Py.sum (map current_value active)) /\
  (fold_left step active acc = [] <->
   acc = [] /\ forall p, In p active ->
                         query_instrument db (position_instrument_id p) = None).
Proof.
  induction active as [|p rest IH]; intros acc step.
  - simpl. split; [auto|]. split.
    + intros _. change (Py.sum []) with 0. lra.
    + intuition.
  - simpl. unfold step at 2 4 6.
    destruct (query_instrument db (position_instrument_id p)) as [i|] eqn:Hq.
    + destruct (IH (dict_add acc (symbol i) (current_value p)))
        as (Hnd & Hsum & Hempty). fold step in Hnd, Hsum, Hempty.
      split; [intros H; apply Hnd, dict_add_nodup, H|]. split.
      * intros Hall. rewrite Hsum by (intros; apply Hall; now right).
        rewrite dict_add_sum, sum_cons. lra.
      * rewrite Hempty. split.
        -- intros [Habs _]. now apply dict_add_nonempty in Habs.
        -- intros [_ Hall]. specialize (Hall p (or_introl eq_refl)). congruence.
    + destruct (IH acc) as (Hnd & Hsum & Hempty).
      fold step in Hnd, Hsum, Hempty.
      split; [exact Hnd|]. split.
      * intros Hall. exfalso. apply (Hall p (or_introl eq_refl)). exact Hq.
      * rewrite Hempty. split.
        -- intros [-> Hall]. split; [reflexivity|].
           intros p' [<-|Hin]; [exact Hq | now apply Hall].
        -- intros [-> Hall]. split; [reflexivity|]. intros; apply Hall. now right.
Qed.




(** X17. For a portfolio worth exactly 0 the overall percentage is guarded
    but the per-stock percentages are not: the report fails as soon as one
    active position has its instrument on file, and otherwise succeeds with
    an exposure percentage of 0 and no per-stock entries. *)
Theorem worthless_portfolio_report :
  forall db pfid portfolio,
    query_portfolio_by_id db pfid = Some portfolio ->
    total_value portfolio == 0 ->
    ((exists p, In p (active_positions db pfid) /\
                query_instrument db (position_instrument_id p) <> None) ->
     calculate_portfolio_risk_metrics db pfid = MetricsInternalError)
    /\
    ((forall p, In p (active_positions db pfid) ->
                query_instrument db (position_instrument_id p) = None) ->
     exists r, calculate_portfolio_risk_metrics db pfid = MetricsOk r /\
               exposure_percentage r = 0 /\
               rm_exposure_by_stock r = [] /\
               exposure_percentage_by_stock r = []).
Proof.
  intros db pfid portfolio Hq Hzero.
  unfold calculate_portfolio_risk_metrics. rewrite Hq.
  assert (Py.ltb 0 (total_value portfolio) = false) as Hguard
      by (apply ltb_false; lra).
  apply Qeq_bool_iff in Hzero. rewrite Hzero, Hguard.
  destruct (exposure_loop db (active_positions db pfid) []) as (_ & _ & Hempty).
  fold (exposure_by_stock db (active_positions db pfid)) in Hempty.
  split.
  - intros (p & Hin & Hknown).
    destruct (exposure_by_stock db (active_positions db pfid)) as [|e rest];
      [|reflexivity].
    exfalso. apply Hknown. apply (proj1 Hempty eq_refl). exact Hin.
  - intros Hall.
    rewrite (proj2 Hempty (conj eq_refl Hall)). simpl.
    eexists. split; [reflexivity|]. repeat split.
Qed.

End MetricsProps.

(** ** The option lookup *)

Module SelectionProps.
Import Market Selection PyFacts.

Lemma argmin_spec {A} (key : A -> Q) xs : forall best,
  In (argmin key best xs) (best :: xs) /\
  forall y, In y (best :: xs) -> key (argmin key best xs) <= key y.
Proof.
  induction xs as [|x rest IH]; intros best; simpl.
  - split; [now left|]. intros y [<-|[]]. lra.
  - destruct (IH (if Py.ltb (key x) (key best) then x else best))
      as [Hin Hmin].
    split.
    + destruct Hin as [Heq|Hin]; [|now right; right].
      rewrite <- Heq. destruct (Py.ltb (key x) (key best)); auto.
    + intros y Hy.
      assert (key (if Py.ltb (key x) (key best) then x else best) <= key x /\
              key (if Py.ltb (key x) (key best) then x else best) <= key best)
        as [Hx Hb].
      { destruct (Py.ltb (key x) (key best)) eqn:E; reflect_hyps; split; lra. }
      pose proof (Hmin _ (or_introl eq_refl)) as Hfirst.
      destruct Hy as [<-|[<-|Hy]]; [lra | lra |].
      apply Hmin. now right.
Qed.

Lemma filter_qualifies db iid ty days o :
  In o (filter (fun o => Z.eqb (opt_instrument_id o) iid
                         && Z.leb (midnight (date_of (utcnow db) + days - 2))
                                  (expiration_date o)
                         && Z.leb (expiration_date o)
                                  (midnight (date_of (utcnow db) + days + 2))
                         && option_type_eqb (option_type o) ty)
               (options db))
  <-> qualifies db iid ty days o.
Proof.
  rewrite filter_In. unfold qualifies.
  rewrite !andb_true_iff, Z.eqb_eq, !Z.leb_le.
  assert (option_type_eqb (option_type o) ty = true <-> option_type o = ty)
    as -> by (destruct (option_type o), ty; simpl; intuition congruence).
  tauto.
Qed.


(** X18. [find_atm_options] returns a contract exactly when one qualifies
    (listed, of the instrument and type, expiring within two days of the
    target date); the contract returned qualifies and no qualifying contract
    has its strike closer to the current price. *)
Theorem atm_option_is_nearest :
  forall db iid price ty days,
    (forall o,
        find_atm_options db iid price ty days = Some o ->
        qualifies db iid ty days o /\
        forall o', qualifies db iid ty days o' ->
                   distance price o <= distance price o')
    /\
    (find_atm_options db iid price ty days = None <->
     forall o, ~ qualifies db iid ty days o).
Proof.
  intros db iid price ty days. unfold find_atm_options.
  pose proof (filter_qualifies db iid ty days) as Hq.
  destruct (filter _ (options db)) as [|first rest].
  - split; [discriminate|]. split; [|reflexivity].
    intros _ o Ho. apply Hq in Ho. destruct Ho.
  - destruct (argmin_spec (fun x => Qabs (strike_price x - price)) rest first)
      as [Hin Hmin].
    split.
    + intros o Ho. apply ExitPlanningProps.some_eq in Ho. subst o.
      split; [apply Hq; exact Hin|].
      intros o' Ho'. apply Hq in Ho'. exact (Hmin o' Ho').
    + split; [discriminate|]. intros Hnone. exfalso.
      apply (Hnone first). apply Hq. now left.
Qed.

End SelectionProps.

(** ** Further properties of the ensembles *)

Module EnsembleMore.
Import Market EnsembleStrategy Buckets PyFacts.

(** *** The buckets *)

Lemma group_inner (name : string) (signals : list Signal) :
  forall acc : list (string * Signal) * list (string * Signal),
  fold_left
    (fun acc signal =>
       match signal_type (data signal) with
       | LONG_CALL => (fst acc ++ [(name, signal)], snd acc)
       | LONG_PUT => (fst acc, snd acc ++ [(name, signal)])
       | _ => acc
       end)
    signals acc
  = (fst acc ++ map (pair name) (filter is_call signals),
     snd acc ++ map (pair name) (filter is_put signals)).
Proof.
  induction signals as [|s rest IH]; intros [calls puts]; simpl.
  - now rewrite !app_nil_r.
  - rewrite IH. unfold is_call, is_put.
    destruct (signal_type (data s)); simpl;
      rewrite <- ?app_assoc; reflexivity.
Qed.

Lemma group_outer (d : list (string * list Signal)) :
  forall acc : list (string * Signal) * list (string * Signal),
  fold_left
    (fun acc entry =>
       fold_left
         (fun acc signal =>
            match signal_type (data signal) with
            | LONG_CALL => (fst acc ++ [(fst entry, signal)], snd acc)
            | LONG_PUT => (fst acc, snd acc ++ [(fst entry, signal)])
            | _ => acc
            end)
         (snd entry) acc)
    d acc
  = (fst acc ++ candidates_of is_call d, snd acc ++ candidates_of is_put d).
Proof.
  induction d as [|e rest IH]; intros acc; simpl.
  - rewrite !app_nil_r. now destruct acc.
  - rewrite group_inner, IH. simpl. now rewrite <- !app_assoc.
Qed.

Lemma group_is_comprehension d :
  group_signals d = (candidates_of is_call d, candidates_of is_put d).
Proof. unfold group_signals. now rewrite group_outer. Qed.


Lemma dict_set_fresh {V} (d : list (string * V)) k v :
  ~ In k (map fst d) -> dict_set d k v = d ++ [(k, v)].
Proof.
  induction d as [|[k' v'] rest IH]; simpl; intros Hfresh; [reflexivity|].
  destruct (String.eqb k' k) eqn:Heq.
  - apply String.eqb_eq in Heq. exfalso. apply Hfresh. now left.
  - rewrite IH; [reflexivity|]. intros Hin. apply Hfresh. now right.
Qed.


Lemma collect_is_comprehension (instrument : Instrument)
      (entries : list (string * Strategy)) :
  forall acc : list (string * list Signal),
  NoDup (map fst acc ++ map fst entries) ->
  fold_left
    (fun strategy_signals entry =>
       match snd entry instrument with
       | Returns [] => strategy_signals
       | Returns signals => dict_set strategy_signals (fst entry) signals
       | Raises => strategy_signals
       end)
    entries acc
  = acc ++ flat_map (fun e => match snd e instrument with
                              | Returns (x :: rest) => [(fst e, x :: rest)]
                              | _ => []
                              end) entries.
Proof.
  induction entries as [|[n st] rest IH]; intros acc Hnd; simpl.
  - now rewrite app_nil_r.
  - assert (~ In n (map fst acc) /\ NoDup (map fst acc ++ map fst rest))
      as [Hfresh Hrest].
    { simpl in Hnd. split.
      - apply NoDup_remove_2 in Hnd. intros Hin. apply Hnd.
        apply in_or_app. now left.
      - now apply NoDup_remove_1 in Hnd. }
    destruct (st instrument) as [|[|x l]]; simpl.
    + now apply IH.
    + now apply IH.
    + rewrite dict_set_fresh by exact Hfresh.
      rewrite IH.
      * now rewrite <- app_assoc.
      * rewrite map_app. simpl. rewrite <- app_assoc. simpl.
        simpl in Hnd. exact Hnd.
Qed.

(** X19. With distinct strategy names, the call bucket of a cycle is exactly
    the list of LONG_CALL candidates, and the put bucket the list of
    LONG_PUT candidates, returned by the strategies that did not raise, each
    paired with its strategy's name and in the order of the strategies;
    candidates of any other type are in neither bucket. *)
Theorem buckets_are_the_candidates :
  forall self instrument,
    NoDup (map fst (strategies self)) ->
    collect_signals self instrument = returned self instrument /\
    call_signals self instrument
    = candidates_of is_call (returned self instrument) /\
    put_signals self instrument
    = candidates_of is_put (returned self instrument).
Proof.
  intros self instrument Hnd.
  assert (collect_signals self instrument = returned self instrument) as Hc.
  { unfold collect_signals, returned.
    now rewrite collect_is_comprehension. }
  unfold call_signals, put_signals.
  rewrite Hc, group_is_comprehension. repeat split.
Qed.



End EnsembleMore.

Module EnsembleShape.
Import Market EnsembleStrategy Buckets PyFacts.

Lemma mean_or_within xs fallback : within xs fallback (mean_or xs fallback).
Proof.
  destruct xs as [|x rest]; split.
  - reflexivity.
  - intros lo hi Hne. now contradiction Hne.
  - discriminate.
  - intros lo hi _ Hall. simpl.
    apply (EnsembleProps.mean_between lo hi _ _ Hall).
Qed.

Lemma bucket_signal self combine indicator instrument price type_ option_type_
      tf sf votes all_signals :
  let out := signals_of (bucket self combine indicator instrument price
                                type_ option_type_ tf sf votes all_signals) in
  out = all_signals \/
  exists s, out = all_signals ++ [s] /\
            combined_from self instrument price type_ option_type_ tf sf votes s.
Proof.
  unfold bucket.
  destruct (Z.leb (min_strategies self) (Z.of_nat (List.length votes)));
    [|now left].
  destruct (combine votes) as [confidence|]; [|now left].
  destruct (Py.leb (min_confidence self) confidence) eqn:Hconf; [|now left].
  destruct (find_atm_options _ _ _ _ _) as [atm|] eqn:Hatm; [|now left].
  unfold save_signal. destruct (commit _ _) as [k|]; [|now left].
  right. eexists. split; [reflexivity|].
  exists atm. do 2 eexists. cbn [data signal_type signal_source status
    entry_price instrument_id confidence_score option_id option_strike
    option_expiration target_price stop_loss].
  reflect_hyps.
  repeat (split; [first [reflexivity | assumption]|]).
  split; apply mean_or_within.
Qed.

Lemma cycle_signal self combine indicator instrument :
  exists calls puts,
    cycle self combine indicator instrument = calls ++ puts /\
    (List.length calls <= 1)%nat /\ (List.length puts <= 1)%nat /\
    (forall s price,
        In s calls -> current_price_of instrument = Some price ->
        combined_from self instrument price LONG_CALL call 1.05 0.97
                      (call_signals self instrument) s) /\
    (forall s price,
        In s puts -> current_price_of instrument = Some price ->
        combined_from self instrument price LONG_PUT put 0.95 1.03
                      (put_signals self instrument) s).
Proof.
  unfold cycle, call_signals, put_signals.
  destruct (current_price_of instrument) as [price|].
  2:{ exists [], []. repeat split; simpl; try lia; try (intros s p []). }
  set (calls := fst _). set (puts := snd _).
  pose proof (bucket_signal self combine indicator instrument price
                            LONG_CALL call 1.05 0.97 calls []) as Hcall.
  assert (forall out1,
             out1 = [] \/
             (exists s, out1 = [] ++ [s] /\
                        combined_from self instrument price LONG_CALL call
                                      1.05 0.97 calls s) ->
             (List.length out1 <= 1)%nat /\
             forall s p, In s out1 -> Some price = Some p ->
                         combined_from self instrument p LONG_CALL call
                                       1.05 0.97 calls s) as Hone.
  { intros out1 [-> | (s1 & -> & Hs1)]; simpl; split; try lia.
    intros s p [<-|[]] Hp.
    apply ExitPlanningProps.some_eq in Hp. now subst p. }
  destruct (bucket self combine indicator instrument price
                   LONG_CALL call 1.05 0.97 calls []) as [out1|out1];
    simpl in Hcall; destruct (Hone out1 Hcall) as [Hlen1 Hdesc1].
  - exists out1, []. rewrite app_nil_r.
    repeat split; simpl; try lia; try assumption; try (intros s p []).
  - pose proof (bucket_signal self combine indicator instrument price
                              LONG_PUT put 0.95 1.03 puts out1) as Hput.
    assert (forall out2,
               out2 = out1 \/
               (exists s, out2 = out1 ++ [s] /\
                          combined_from self instrument price LONG_PUT put
                                        0.95 1.03 puts s) ->
               exists tail,
                 out2 = out1 ++ tail /\ (List.length tail <= 1)%nat /\
                 forall s p, In s tail -> Some price = Some p ->
                             combined_from self instrument p LONG_PUT put
                                           0.95 1.03 puts s) as Htwo.
    { intros out2 [-> | (s2 & -> & Hs2)].
      - exists []. rewrite app_nil_r. repeat split; simpl; try lia.
      - exists [s2]. repeat split; simpl; try lia.
        intros s p [<-|[]] Hp.
        apply ExitPlanningProps.some_eq in Hp. now subst p. }
    destruct (bucket self combine indicator instrument price
                     LONG_PUT put 0.95 1.03 puts out1) as [out2|out2];
      simpl in Hput; destruct (Htwo out2 Hput) as (tail & -> & Hlen2 & Hdesc2);
      exists out1, tail; repeat split; assumption.
Qed.

(** X21. Either ensemble returns at most two signals: at most one combined
    call followed by at most one combined put; each is an ENSEMBLE signal in
    PENDING status for the instrument, without entry price, with a
    confidence of at least [min_confidence]. *)
Theorem ensemble_output_shape :
  forall self instrument out,
    out = EnsembleStrategy.generate_signals self instrument \/
    out = WeightedEnsembleStrategy.generate_signals self instrument ->
    exists calls puts,
      out = calls ++ puts /\
      (List.length calls <= 1)%nat /\ (List.length puts <= 1)%nat /\
      (forall s, In s calls -> signal_type (data s) = LONG_CALL) /\
      (forall s, In s puts -> signal_type (data s) = LONG_PUT) /\
      (forall s, In s out ->
                 signal_source (data s) = ENSEMBLE /\
                 status (data s) = PENDING /\
                 entry_price (data s) = None /\
                 instrument_id (data s) = id instrument /\
                 min_confidence self <= confidence_score (data s)).
Proof.
  intros self instrument out Hout.
  assert (exists combine indicator,
             out = cycle self combine indicator instrument)
    as (combine & indicator & ->).
  { destruct Hout as [-> | ->]; do 2 eexists; reflexivity. }
  destruct (cycle_signal self combine indicator instrument)
    as (calls & puts & Heq & Hl1 & Hl2 & Hc & Hp).
  exists calls, puts. rewrite Heq.
  destruct (current_price_of instrument) as [price|] eqn:Hprice.
  2:{ unfold cycle in Heq. rewrite Hprice in Heq.
      symmetry in Heq. apply app_eq_nil in Heq. destruct Heq as [-> ->].
      split; [reflexivity|]. split; [simpl; lia|]. split; [simpl; lia|].
      split; [intros ? []|]. split; [intros ? []|]. intros ? []. }
  split; [reflexivity|]. split; [exact Hl1|]. split; [exact Hl2|].
  split.
  { intros s Hs. destruct (Hc s price Hs eq_refl) as (? & ? & ? & H). tauto. }
  split.
  { intros s Hs. destruct (Hp s price Hs eq_refl) as (? & ? & ? & H). tauto. }
  intros s Hs.
  destruct (in_app_or _ _ _ Hs) as [H|H];
    [destruct (Hc s price H eq_refl) as (? & ? & ? & H')
    |destruct (Hp s price H eq_refl) as (? & ? & ? & H')]; tauto.
Qed.


End EnsembleShape.

(** ** Further properties of the earnings strategy *)

Module EarningsMore.
Import Market EarningsStrategy PyFacts.

Ltac constant_divisions :=
  unfold Qdiv in *;
  change (/ 2) with (1 # 2) in *;
  change (/ 100) with (1 # 100) in *.

Lemma clamp_range x : -1 <= Py.max (-1) (Py.min 1 x) <= 1.
Proof.
  destruct (min_spec 1 x) as [[? ->]|[? ->]];
    [destruct (max_spec (-1) x) as [[? ->]|[? ->]]
    |destruct (max_spec (-1) 1) as [[? ->]|[? ->]]]; lra.
Qed.

Lemma surprises_insert (key : EarningsData -> Z) x rows :
  List.length (surprises_of (insert_by key x rows))
  = List.length (surprises_of (x :: rows)).
Proof.
  induction rows as [|y rest IH]; [reflexivity|].
  simpl. destruct (Z.leb (key x) (key y)); [reflexivity|].
  unfold surprises_of in *. simpl in *. rewrite !length_app in *.
  rewrite IH. lia.
Qed.

Lemma surprises_sorted (key : EarningsData -> Z) rows :
  List.length (surprises_of (sort_by key rows))
  = List.length (surprises_of rows).
Proof.
  induction rows as [|x rest IH]; [reflexivity|].
  unfold sort_by in *. simpl. rewrite surprises_insert.
  unfold surprises_of in *. simpl. rewrite !length_app. now rewrite IH.
Qed.

Lemma trend_bounds rows : -1 <= calculate_earnings_surprise_trend rows <= 1.
Proof.
  unfold calculate_earnings_surprise_trend.
  destruct (Nat.ltb (List.length rows) 2); [lra|].
  destruct (Nat.ltb (List.length (surprises_of (sort_by earnings_date rows))) 2);
    [lra|].
  apply clamp_range.
Qed.

(** X23. The surprise trend always lies between -1 and 1, and it is 0
    whenever fewer than two rows are given or fewer than two of them report
    a surprise. *)
Theorem surprise_trend_range :
  forall rows,
    -1 <= calculate_earnings_surprise_trend rows <= 1 /\
    ((List.length rows < 2)%nat \/ (List.length (surprises_of rows) < 2)%nat ->
     calculate_earnings_surprise_trend rows = 0).
Proof.
  intros rows. unfold calculate_earnings_surprise_trend.
  destruct (Nat.ltb (List.length rows) 2) eqn:Hrows.
  { split; [lra | reflexivity]. }
  destruct (Nat.ltb (List.length (surprises_of (sort_by earnings_date rows))) 2)
           eqn:Hsur.
  { split; [lra | reflexivity]. }
  split; [apply clamp_range|].
  apply Nat.ltb_ge in Hrows. apply Nat.ltb_ge in Hsur.
  rewrite surprises_sorted in Hsur. intros [H|H]; lia.
Qed.

Lemma emit_data self instrument type_ target stop confidence atm params :
  let out := emit self instrument type_ target stop confidence atm params [] in
  out = [] \/
  exists s, out = [s] /\
            signal_type (data s) = type_ /\
            signal_source (data s) = FUNDAMENTAL /\
            status (data s) = PENDING /\
            target_price (data s) = Some target /\
            stop_loss (data s) = Some stop /\
            confidence_score (data s) = confidence.
Proof.
  unfold emit, save_signal. destruct (commit _ _) as [k|]; [|now left].
  right. eexists. repeat split.
Qed.

(** The four ways a signal can come out of [generate_signals]. *)
Lemma earnings_signal_cases self instrument s :
  In s (generate_signals self instrument) ->
  exists price,
    current_price_of instrument = Some price /\
    signal_source (data s) = FUNDAMENTAL /\
    status (data s) = PENDING /\
    ((exists trend,
         -1 <= trend <= 1 /\ 0.2 < trend /\
         signal_type (data s) = LONG_CALL /\
         target_price (data s) = Some (price * 1.07) /\
         stop_loss (data s) = Some (price * 0.95) /\
         confidence_score (data s) = 0.6 + trend * 0.3)
     \/
     (exists trend,
         -1 <= trend <= 1 /\ trend < -0.2 /\
         signal_type (data s) = LONG_PUT /\
         target_price (data s) = Some (price * 0.93) /\
         stop_loss (data s) = Some (price * 1.05) /\
         confidence_score (data s) = 0.6 + Qabs trend * 0.3)
     \/
     (exists surprise,
         10 < surprise /\
         signal_type (data s) = LONG_CALL /\
         target_price (data s) = Some (price * 1.08) /\
         stop_loss (data s) = Some (price * 0.96) /\
         confidence_score (data s) = 0.7 + Py.min surprise 30 / 100)
     \/
     (exists surprise,
         surprise < -10 /\
         signal_type (data s) = LONG_PUT /\
         target_price (data s) = Some (price * 0.92) /\
         stop_loss (data s) = Some (price * 1.04) /\
         confidence_score (data s) = 0.7 + Py.min (Qabs surprise) 30 / 100)).
Proof.
  unfold generate_signals, get_upcoming_earnings.
  destruct (current_price_of instrument) as [price|]; [|intros []].
  destruct (next_date instrument) as [upcoming|]; [|intros []].
  set (trend := calculate_earnings_surprise_trend _).
  pose proof (trend_bounds
                (get_historical_earnings_surprises self instrument 4))
    as Htrend. fold trend in Htrend.
  assert (forall type_ target stop confidence atm params,
             In s (emit self instrument type_ target stop confidence atm
                        params []) ->
             signal_type (data s) = type_ /\
             signal_source (data s) = FUNDAMENTAL /\
             status (data s) = PENDING /\
             target_price (data s) = Some target /\
             stop_loss (data s) = Some stop /\
             confidence_score (data s) = confidence) as Hemit.
  { intros type_ target stop confidence atm params Hin.
    destruct (emit_data self instrument type_ target stop confidence atm params)
      as [Hnil | (s' & Heq & H)]; rewrite ?Hnil, ?Heq in Hin.
    - destruct Hin.
    - destruct Hin as [<-|[]]. exact H. }
  destruct (Z.ltb 0 _ && Z.leb _ (days_before self)).
  - destruct (Py.ltb 0.2 trend) eqn:Hup;
      [|destruct (Py.ltb trend (-0.2)) eqn:Hdown; [|intros []]].
    + destruct (find_atm_options _ _ _ call _) as [atm|]; [|intros []].
      intros Hin. apply Hemit in Hin. reflect_hyps.
      exists price. split; [reflexivity|]. split; [tauto|]. split; [tauto|].
      left. exists trend. tauto.
    + destruct (find_atm_options _ _ _ put _) as [atm|]; [|intros []].
      intros Hin. apply Hemit in Hin. reflect_hyps.
      exists price. split; [reflexivity|]. split; [tauto|]. split; [tauto|].
      right. left. exists trend. tauto.
  - destruct (Z.leb _ _ && Z.leb _ 0); [|intros []].
    destruct (most_recent_earnings self instrument) as [row|]; [|intros []].
    destruct (surprise_percentage row) as [surprise|]; [|intros []].
    destruct (Py.ltb 10 surprise) eqn:Hup;
      [|destruct (Py.ltb surprise (-10)) eqn:Hdown; [|intros []]].
    + destruct (find_atm_options _ _ _ call _) as [atm|]; [|intros []].
      intros Hin. apply Hemit in Hin. reflect_hyps.
      exists price. split; [reflexivity|]. split; [tauto|]. split; [tauto|].
      right. right. left. exists surprise. tauto.
    + destruct (find_atm_options _ _ _ put _) as [atm|]; [|intros []].
      intros Hin. apply Hemit in Hin. reflect_hyps.
      exists price. split; [reflexivity|]. split; [tauto|]. split; [tauto|].
      right. right. right. exists surprise. tauto.
Qed.


(** X25. At a positive current price every earnings signal is bracketed the
    right way round: a long call has its stop below and its target above the
    current price, a long put its target below and its stop above, each
    within 8% of the price. *)
Theorem earnings_prices_bracket :
  forall self instrument s price,
    In s (generate_signals self instrument) ->
    current_price_of instrument = Some price ->
    0 < price ->
    exists target stop,
      target_price (data s) = Some target /\
      stop_loss (data s) = Some stop /\
      price * 0.92 <= target <= price * 1.08 /\
      price * 0.95 <= stop <= price * 1.05 /\
      (signal_type (data s) = LONG_CALL -> stop < price < target) /\
      (signal_type (data s) = LONG_PUT -> target < price < stop).
Proof.
  intros self instrument s price Hin Hprice Hpos.
  destruct (earnings_signal_cases self instrument s Hin)
    as (price' & Hprice' & _ & _ & Hcases).
  assert (price' = price) as -> by congruence.
  destruct Hcases as [(trend & _ & _ & Hty & Ht & Hs & _)
                     |[(trend & _ & _ & Hty & Ht & Hs & _)
                      |[(surprise & _ & Hty & Ht & Hs & _)
                       |(surprise & _ & Hty & Ht & Hs & _)]]];
    do 2 eexists; (split; [exact Ht|]); (split; [exact Hs|]);
    rewrite Hty; repeat split; try discriminate; intros; lra.
Qed.

End EarningsMore.

(** ** The further properties on concrete sessions *)

Module MoreChecks.
Import RiskManagementService SizingExamples MoreExamples.


Lemma sizing_zero_iff_refused_witness :
  result_contracts (calculate_position_size exhausted 1 3 0.5 2.5) = 0%Z
  <->
  ~ exists user profile portfolio instrument,
      query_user exhausted 1 = Some user /\
      risk_profile user = Some profile /\
      query_portfolio exhausted 1 = Some portfolio /\
      query_instrument exhausted 3 = Some instrument /\
      0 < headroom_of exhausted profile portfolio 3.
Proof.
  apply (SizingMore.sizing_zero_iff_refused exhausted 1 3 0.5 2.5).
  reflexivity.
Defined.


Lemma plain_sizing_within_limits_witness :
  exists r,
    PlainSizing.calculate_position_size roomy 1 3 0.85 2.5 = PlainSizing.Ok r /\
    PlainSizing.plain_contracts r = 10%Z /\
    inject_Z (PlainSizing.plain_contracts r) * PlainSizing.plain_contract_value r
    <= PlainSizing.plain_max_capital r /\
    PlainSizing.plain_max_capital r <= PlainSizing.plain_available_allocation r.
Proof.
  eexists. split; [reflexivity|]. split; [reflexivity|].
  destruct (PlainSizingProps.plain_sizing_within_limits
              roomy 1 3 0.85 2.5 _ eq_refl eq_refl) as (_ & H1 & _ & H2 & _).
  - vm_compute. discriminate.
  - split; [exact H1 | exact H2].
Defined.

Import ExitPlanning.


Lemma stop_tightens_toward_expiry_witness :
  sltp_stop_loss_price (calculate_stop_loss_take_profit 11 10 5 "normal")
  <= sltp_stop_loss_price (calculate_stop_loss_take_profit 11 10 2 "normal")
  /\
  sltp_stop_loss_price (calculate_stop_loss_take_profit 11 10 0 "normal") == 10.
Proof.
  destruct (ExitPlanningProps.stop_tightens_toward_expiry 11 10 "normal")
    as (Hmono & _ & Hzero & _).
  - vm_compute. discriminate.
  - split; [|exact Hzero].
    apply (Hmono 2%Z 5%Z). vm_compute. discriminate.
Defined.

Lemma dynamic_take_profit_grows_witness :
  exists r1 r2,
    calculate_dynamic_take_profit (holding 12) 11 0.1 = Some r1 /\
    calculate_dynamic_take_profit (holding 12) 11 0.4 = Some r2 /\
    dtp_entry_price r1 <= take_profit_price r1 /\
    take_profit_price r1 <= take_profit_price r2.
Proof.
  do 2 eexists. split; [reflexivity|]. split; [reflexivity|].
  destruct (ExitPlanningProps.dynamic_take_profit_grows
              (holding 12) 11 0.1 0.4 _ _ ltac:(vm_compute; discriminate)
              eq_refl eq_refl) as (_ & _ & _ & H1 & H2).
  split; [exact H1 | exact H2].
Defined.

Lemma derated_ladder_is_lower_witness :
  exists r,
    adjust_take_profit_for_dte (holding 12) (fun _ => 3%Z) 11 = Some r /\
    List.length (adjusted_thresholds r) = 3%nat /\
    increasing (adjusted_thresholds r) /\
    Forall2 (fun a b => take_pct a = take_pct b /\
                        profit_pct b * 0.4 <= profit_pct a <= profit_pct b)
            (adjusted_thresholds r) base_thresholds.
Proof.
  eexists. split; [reflexivity|].
  destruct (ExitPlanningProps.derated_ladder_is_lower
              (holding 12) (fun _ => 3%Z) 11 _ eq_refl)
    as (_ & H1 & H2 & H3 & _).
  split; [exact H1|]. split; [exact H2 | exact H3].
Defined.

Lemma derating_follows_days_witness :
  exists r1 r2,
    adjust_take_profit_for_dte (holding 12) (fun _ => 1%Z) 11 = Some r1 /\
    adjust_take_profit_for_dte (holding 12) (fun _ => 4%Z) 11 = Some r2 /\
    Forall2 (fun a b => profit_pct a <= profit_pct b)
            (adjusted_thresholds r1) (adjusted_thresholds r2).
Proof.
  do 2 eexists. split; [reflexivity|]. split; [reflexivity|].
  apply (ExitPlanningProps.derating_follows_days
           (holding 12) (holding 12) (fun _ => 1%Z) (fun _ => 4%Z) 11 11
           _ _ eq_refl eq_refl).
  vm_compute. discriminate.
Defined.

Lemma ladder_keeps_a_quarter_witness :
  total_pct_taken
    (run_profit_taking (holding 12.2)
                       [(11%Z, 0.9); (11%Z, 0.9); (11%Z, 0.9); (11%Z, 0.9)])
    11 <= 0.75.
Proof.
  apply LadderMore.ladder_keeps_a_quarter. vm_compute. discriminate.
Defined.

Lemma no_release_below_first_threshold_witness :
  snd (implement_partial_profit_taking (holding 11.9) 11 0.19) = holding 11.9
  /\ fst (implement_partial_profit_taking (holding 11.9) 11 0.19)
     = ActionHold 11 0.19 (total_pct_taken (holding 11.9) 11).
Proof.
  destruct (LadderMore.no_release_below_first_threshold (holding 11.9) 11 0.19)
    as [Hdb Hhold].
  - vm_compute. reflexivity.
  - split; [exact Hdb|]. apply (Hhold (long_position 11.9)). reflexivity.
Defined.

Lemma ledger_is_append_only_witness :
  positions (snd (implement_partial_profit_taking (holding 12.2) 11 0.22))
  = positions (holding 12.2)
  /\ total_pct_taken
       (snd (implement_partial_profit_taking (holding 12.2) 11 0.22)) 12
     = total_pct_taken (holding 12.2) 12.
Proof.
  destruct (LadderMore.ledger_is_append_only (holding 12.2) 11 0.22)
    as (Hpos & _ & _ & _ & _ & Hother).
  split; [exact Hpos|]. apply Hother. discriminate.
Defined.

Lemma release_lands_on_target_witness :
  exists r,
    fst (implement_partial_profit_taking quarter_released 11 0.37)
    = ActionPartialClose r /\
    0 < percentage_to_close r /\
    exists t, In t thresholds /\ threshold_triggered r = profit_pct t /\
              total_pct_taken
                (snd (implement_partial_profit_taking quarter_released 11 0.37))
                11 == target_total t.
Proof.
  eexists. split; [reflexivity|].
  destruct (proj2 (LadderMore.release_lands_on_target
                     quarter_released 11 0.37 (long_position 12.2) eq_refl)
                  _ eq_refl)
    as (Hpos & _ & _ & t & Hin & Htrig & _ & Htotal).
  split; [exact Hpos|]. exists t. repeat split; assumption.
Defined.

Lemma ladder_settles_in_three_calls_witness :
  all_released
    (total_pct_taken
       (run_profit_taking (holding 15.5)
                          [(11%Z, 0.55); (11%Z, 0.55); (11%Z, 0.55)]) 11)
    0.55.
Proof.
  apply (LadderMore.ladder_settles_in_three_calls
           (holding 15.5) 11 0.55 (long_position 15.5)).
  reflexivity.
Defined.


Lemma worthless_portfolio_report_witness :
  calculate_portfolio_risk_metrics worthless 7 = MetricsInternalError.
Proof.
  apply (proj1 (MetricsProps.worthless_portfolio_report
                  worthless 7
                  {| portfolio_id := 7; portfolio_user_id := 1;
                     total_value := 0 |}
                  eq_refl ltac:(reflexivity))).
  exists (long_position 12). split; [now left|]. vm_compute. discriminate.
Defined.

End MoreChecks.

Module SignalChecks.
Import Market EnsembleStrategy Buckets EnsembleExamples.

Lemma atm_option_is_nearest_witness :
  exists o,
    find_atm_options (chain [contract 5 call; contract 6 put]) 3 100 call 7
    = Some o /\
    opt_id o = 5%Z /\
    Selection.qualifies (chain [contract 5 call; contract 6 put]) 3 call 7 o.
Proof.
  eexists. split; [reflexivity|]. split; [reflexivity|].
  apply (proj1 (SelectionProps.atm_option_is_nearest
                  (chain [contract 5 call; contract 6 put]) 3 100 call 7)).
  reflexivity.
Defined.

Lemma scenario_b_names_distinct : NoDup (map fst (strategies scenario_b)).
Proof.
  simpl. repeat constructor; simpl; intuition discriminate.
Defined.

Lemma buckets_are_the_candidates_witness :
  call_signals scenario_b msft
  = candidates_of is_call (returned scenario_b msft)
  /\ put_signals scenario_b msft
     = candidates_of is_put (returned scenario_b msft).
Proof.
  destruct (EnsembleMore.buckets_are_the_candidates
              scenario_b msft scenario_b_names_distinct) as (_ & Hc & Hp).
  split; [exact Hc | exact Hp].
Defined.



Lemma ensemble_output_shape_witness :
  exists calls puts,
    EnsembleStrategy.generate_signals scenario_b msft = calls ++ puts /\
    (List.length calls <= 1)%nat /\ (List.length puts <= 1)%nat.
Proof.
  destruct (EnsembleShape.ensemble_output_shape
              scenario_b msft
              (EnsembleStrategy.generate_signals scenario_b msft)
              (or_introl eq_refl))
    as (calls & puts & H1 & H2 & H3 & _).
  exists calls, puts. split; [exact H1|]. split; [exact H2 | exact H3].
Defined.


Import EarningsStrategy EarningsExamples.

Lemma surprise_trend_range_witness :
  calculate_earnings_surprise_trend [quarter 910 40] = 0.
Proof.
  apply (proj2 (EarningsMore.surprise_trend_range [quarter 910 40])).
  left. simpl. lia.
Defined.


Lemma earnings_prices_bracket_witness :
  exists s target stop,
    generate_signals (make books) (reporting_on 1001) = [s] /\
    target_price (data s) = Some target /\
    stop_loss (data s) = Some stop /\
    100 * 0.92 <= target <= 100 * 1.08.
Proof.
  assert (exists s, generate_signals (make books) (reporting_on 1001) = [s])
    as [s Hs] by (eexists; reflexivity).
  destruct (EarningsMore.earnings_prices_bracket
              (make books) (reporting_on 1001) s 100)
    as (target & stop & Ht & Hst & Hrange & _).
  - rewrite Hs. now left.
  - reflexivity.
  - reflexivity.
  - exists s, target, stop. split; [exact Hs|].
    split; [exact Ht|]. split; [exact Hst | exact Hrange].
Defined.

End SignalChecks.

(** ** More on the fundamental strategies *)

Module SortFacts.
Import EarningsStrategy.
Import ValuationStrategy(ascending).

Lemma insert_in {A} (key : A -> Z) x y xs :
  In y (insert_by key x xs) <-> y = x \/ In y xs.
Proof.
  induction xs as [|z rest IH]; simpl.
  - intuition congruence.
  - destruct (Z.leb (key x) (key z)); simpl; [intuition congruence|].
    rewrite IH. intuition congruence.
Qed.

Lemma sort_in {A} (key : A -> Z) y xs :
  In y (sort_by key xs) <-> In y xs.
Proof.
  unfold sort_by. induction xs as [|x rest IH]; simpl; [tauto|].
  rewrite insert_in, IH. intuition congruence.
Qed.

Lemma insert_ascending {A} (key : A -> Z) x xs :
  ascending key xs -> ascending key (insert_by key x xs).
Proof.
  induction xs as [|z rest IH]; simpl; intros Hs.
  - split; [intros y []|exact I].
  - destruct Hs as [Hz Hrest]. destruct (Z.leb (key x) (key z)) eqn:E.
    + apply Z.leb_le in E. simpl. repeat split; try assumption.
      intros y [<-|Hy]; [exact E|]. specialize (Hz y Hy). lia.
    + apply Z.leb_gt in E. simpl. split; [|now apply IH].
      intros y Hy. apply insert_in in Hy. destruct Hy as [->|Hy]; [lia|].
      now apply Hz.
Qed.

Lemma sort_ascending {A} (key : A -> Z) xs : ascending key (sort_by key xs).
Proof.
  unfold sort_by. induction xs as [|x rest IH]; simpl; [exact I|].
  now apply insert_ascending.
Qed.

Lemma find_ascending {A} (key : A -> Z) (p : A -> bool) xs m :
  ascending key xs ->
  find p xs = Some m ->
  In m xs /\ p m = true /\
  forall m', In m' xs -> p m' = true -> (key m <= key m')%Z.
Proof.
  induction xs as [|x rest IH]; simpl; [discriminate|].
  intros [Hx Hrest] Hfind. destruct (p x) eqn:Ep.
  - injection Hfind as <-. repeat split; [now left|exact Ep|].
    intros m' [<-|Hm'] _; [lia|now apply Hx].
  - destruct (IH Hrest Hfind) as (Hin & Hp & Hmin).
    repeat split; [now right|exact Hp|].
    intros m' [<-|Hm'] Hpm'; [congruence|now apply Hmin].
Qed.

End SortFacts.

Module ValuationProps.
Import Market ValuationStrategy PyFacts SortFacts.
Import EarningsStrategy(sort_by, insert_by).
Import EnsembleStrategy(dict_set).

(** *** Dictionaries *)

Lemma get_set {V} (d : list (string * V)) k v k' :
  dict_get (dict_set d k v) k'
  = if String.eqb k k' then Some v else dict_get d k'.
Proof.
  unfold dict_get. induction d as [|[k0 v0] rest IH]; simpl.
  - now destruct (String.eqb k k').
  - destruct (String.eqb k0 k) eqn:E0; simpl.
    + apply String.eqb_eq in E0. subst k0.
      now destruct (String.eqb k k').
    + destruct (String.eqb k0 k') eqn:E1.
      * apply String.eqb_eq in E1. subst k0.
        now rewrite String.eqb_sym, E0.
      * exact IH.
Qed.

Lemma get_cons {V} (d : list (string * V)) k0 (v0 : V) k :
  dict_get ((k0, v0) :: d) k
  = if String.eqb k0 k then Some v0 else dict_get d k.
Proof.
  unfold dict_get. simpl. now destruct (String.eqb k0 k).
Qed.

Lemma get_none_keys {V} (d : list (string * V)) k :
  dict_get d k = None <-> ~ In k (map fst d).
Proof.
  unfold dict_get. induction d as [|[k0 v0] rest IH]; simpl.
  - tauto.
  - destruct (String.eqb k0 k) eqn:E.
    + apply String.eqb_eq in E. split; [discriminate|]. intros H. now contradiction H; left.
    + apply String.eqb_neq in E. rewrite IH. tauto.
Qed.

Lemma set_fresh_keys {V} (d : list (string * V)) k v :
  ~ In k (map fst d) -> map fst (dict_set d k v) = map fst d ++ [k].
Proof.
  induction d as [|[k0 v0] rest IH]; simpl; intros Hk; [reflexivity|].
  destruct (String.eqb k0 k) eqn:E.
  - apply String.eqb_eq in E. contradiction Hk. now left.
  - simpl. f_equal. apply IH. tauto.
Qed.

(** *** [get_valuation_metrics] *)

Lemma first_of_type rows k : forall d,
  dict_get (fold_left keep_first rows d) k
  = match dict_get d k with
    | Some v => Some v
    | None =>
      option_map value (find (fun m => String.eqb (metric_type m) k) rows)
    end.
Proof.
  induction rows as [|m rest IH]; intros d; simpl.
  - now destruct (dict_get d k).
  - rewrite IH. unfold keep_first.
    destruct (dict_get d (metric_type m)) eqn:Em.
    + destruct (dict_get d k) eqn:Ek; [reflexivity|].
      destruct (String.eqb (metric_type m) k) eqn:E; [|reflexivity].
      apply String.eqb_eq in E. congruence.
    + rewrite get_set.
      destruct (String.eqb (metric_type m) k) eqn:E.
      * apply String.eqb_eq in E. subst k. now rewrite Em.
      * reflexivity.
Qed.

Lemma keep_first_nodup rows : forall d,
  NoDup (map fst d) -> NoDup (map fst (fold_left keep_first rows d)).
Proof.
  induction rows as [|m rest IH]; intros d Hd; simpl; [exact Hd|].
  apply IH. unfold keep_first.
  destruct (dict_get d (metric_type m)) eqn:Em; [exact Hd|].
  apply get_none_keys in Em. rewrite (set_fresh_keys _ _ _ Em).
  apply NoDup_app; repeat split; try assumption.
  - constructor; [intros []|constructor].
  - intros x Hx [<-|[]]. contradiction.
Qed.

Lemma metrics_nodup self instrument :
  NoDup (map fst (get_valuation_metrics self instrument)).
Proof.
  apply (keep_first_nodup _ []). constructor.
Qed.

(** X26. The latest value wins: [get_valuation_metrics] lists no metric type
    twice; the value it holds for a type is that of a row of the instrument
    with that type which no other such row postdates, and a type is missing
    only when the instrument has no row of it. *)
Theorem latest_metric_wins :
  forall self instrument k,
    NoDup (map fst (get_valuation_metrics self instrument)) /\
    match dict_get (get_valuation_metrics self instrument) k with
    | Some v =>
      exists m,
        In m (financial_metrics self) /\
        fm_instrument_id m = id instrument /\
        metric_type m = k /\ value m = v /\
        forall m', In m' (financial_metrics self) ->
                   fm_instrument_id m' = id instrument ->
                   metric_type m' = k -> (date m' <= date m)%Z
    | None =>
      forall m, In m (financial_metrics self) ->
                fm_instrument_id m = id instrument -> metric_type m <> k
    end.
Proof.
  intros self instrument k. split; [apply metrics_nodup|].
  unfold get_valuation_metrics.
  rewrite first_of_type. cbn [dict_get find].
  set (rows := sort_by _ _).
  destruct (find _ rows) as [m|] eqn:Hfind; cbn [option_map].
  - destruct (find_ascending (fun m => (- date m)%Z) _ rows m
                             (sort_ascending _ _) Hfind)
      as (Hin & Hp & Hmin).
    apply sort_in, filter_In in Hin. destruct Hin as [Hin Hid].
    apply Z.eqb_eq in Hid. apply String.eqb_eq in Hp.
    exists m. repeat split; try assumption.
    intros m' Hin' Hid' Hk'.
    assert (In m' rows) as Hrows.
    { apply sort_in, filter_In. split; [exact Hin'|now apply Z.eqb_eq]. }
    specialize (Hmin m' Hrows). cbv beta in Hmin.
    assert (String.eqb (metric_type m') k = true) as E by now apply String.eqb_eq.
    specialize (Hmin E). lia.
  - intros m Hin Hid Hk.
    assert (In m rows) as Hrows.
    { apply sort_in, filter_In. split; [exact Hin|now apply Z.eqb_eq]. }
    pose proof (find_none _ _ Hfind m Hrows) as Hn. cbv beta in Hn.
    apply String.eqb_neq in Hn. contradiction.
Qed.


(** *** [get_sector_average_metrics] *)

Lemma get_append d k v k' :
  dict_get (dict_append d k v) k'
  = if String.eqb k k' then Some (or_nil (dict_get d k) ++ [v])
    else dict_get d k'.
Proof.
  unfold dict_get. induction d as [|[k0 v0] rest IH]; simpl.
  - now destruct (String.eqb k k').
  - destruct (String.eqb k0 k) eqn:E0; simpl.
    + apply String.eqb_eq in E0. subst k0.
      now destruct (String.eqb k k').
    + destruct (String.eqb k0 k') eqn:E1.
      * apply String.eqb_eq in E1. subst k0.
        now rewrite String.eqb_sym, E0.
      * exact IH.
Qed.

Lemma append_keys d k v :
  map fst (dict_append d k v)
  = if existsb (String.eqb k) (map fst d) then map fst d
    else map fst d ++ [k].
Proof.
  induction d as [|[k0 v0] rest IH]; simpl; [reflexivity|].
  rewrite (String.eqb_sym k k0).
  destruct (String.eqb k0 k) eqn:E; simpl; [reflexivity|].
  rewrite IH. now destruct (existsb _ _).
Qed.

Lemma append_nodup d k v :
  NoDup (map fst d) -> NoDup (map fst (dict_append d k v)).
Proof.
  intros Hd. rewrite append_keys.
  destruct (existsb (String.eqb k) (map fst d)) eqn:E; [exact Hd|].
  apply NoDup_app; repeat split; try assumption.
  - constructor; [intros []|constructor].
  - intros x Hx [<-|[]].
    assert (existsb (String.eqb k) (map fst d) = true) as E'.
    { apply existsb_exists. exists k. split; [exact Hx|apply String.eqb_refl]. }
    congruence.
Qed.

Lemma append_all es :
  NoDup (map fst es) ->
  forall d k,
    dict_get (fold_left append_entry es d) k
    = match dict_get es k with
      | Some v => Some (or_nil (dict_get d k) ++ [v])
      | None => dict_get d k
      end.
Proof.
  induction es as [|[k0 v0] rest IH]; intros Hnd d k.
  - reflexivity.
  - inversion Hnd as [|? ? Hfresh Hrest]; subst.
    simpl fold_left. rewrite (IH Hrest). unfold append_entry at 1 2. simpl fst. simpl snd.
    rewrite get_append, get_cons.
    destruct (String.eqb k0 k) eqn:E.
    + apply String.eqb_eq in E. subst k0.
      apply get_none_keys in Hfresh. now rewrite Hfresh.
    + reflexivity.
Qed.

Lemma append_all_nodup es : forall d,
  NoDup (map fst d) -> NoDup (map fst (fold_left append_entry es d)).
Proof.
  induction es as [|e rest IH]; intros d Hd; simpl; [exact Hd|].
  apply IH. now apply append_nodup.
Qed.

Lemma collect_get self members : forall d k,
  dict_get (collect_from self d members) k
  = match dict_get d k, values_of self k members with
    | None, [] => None
    | o, vs => Some (or_nil o ++ vs)
    end.
Proof.
  induction members as [|i rest IH]; intros d k.
  - simpl. destruct (dict_get d k); [|reflexivity].
    simpl. now rewrite app_nil_r.
  - unfold collect_from in *. simpl fold_left. rewrite IH.
    rewrite (append_all _ (metrics_nodup self i)).
    unfold values_of. simpl flat_map. fold (values_of self k rest).
    destruct (dict_get (get_valuation_metrics self i) k) as [v|];
      destruct (dict_get d k) as [vs|]; simpl.
    + destruct (values_of self k rest); now rewrite <- app_assoc.
    + reflexivity.
    + reflexivity.
    + reflexivity.
Qed.

Lemma collect_nodup self members : forall d,
  NoDup (map fst d) -> NoDup (map fst (collect_from self d members)).
Proof.
  induction members as [|i rest IH]; intros d Hd; [exact Hd|].
  unfold collect_from in *. simpl. apply IH. now apply append_all_nodup.
Qed.

Lemma averages_get all :
  NoDup (map fst all) ->
  forall acc k,
    dict_get (fold_left average_entry all acc) k
    = match dict_get all k with
      | Some (x :: rest) => Some (Py.sum (x :: rest) / Py.len (x :: rest))
      | _ => dict_get acc k
      end.
Proof.
  induction all as [|[k0 vs0] rest IH]; intros Hnd acc k.
  - reflexivity.
  - inversion Hnd as [|? ? Hfresh Hrest]; subst.
    simpl fold_left. rewrite (IH Hrest), get_cons.
    destruct (String.eqb k0 k) eqn:E.
    + apply String.eqb_eq in E. subst k0.
      apply get_none_keys in Hfresh. rewrite Hfresh.
      unfold average_entry. simpl.
      destruct vs0 as [|x xs]; [reflexivity|].
      rewrite get_set. now rewrite String.eqb_refl.
    + assert (dict_get (average_entry acc (k0, vs0)) k = dict_get acc k) as ->.
      { unfold average_entry. simpl. destruct vs0; [reflexivity|].
        rewrite get_set. now rewrite E. }
      reflexivity.
Qed.

Lemma sector_average_get self s k :
  dict_get (get_sector_average_metrics self s) k
  = match values_of self k (in_sector self s) with
    | [] => None
    | x :: rest => Some (Py.sum (x :: rest) / Py.len (x :: rest))
    end.
Proof.
  unfold get_sector_average_metrics.
  destruct (in_sector self s) as [|i members] eqn:Hmem; [reflexivity|].
  unfold averages, collect_metrics.
  rewrite averages_get by (apply collect_nodup; constructor).
  rewrite collect_get. cbn [dict_get find].
  destruct (values_of self k (i :: members)); reflexivity.
Qed.



(** *** [generate_signals] *)






Lemma check_idle triggered name weight metrics sector_metrics state :
  (forall v avg, dict_get metrics name = Some v ->
                 dict_get sector_metrics name = Some avg ->
                 triggered v avg = false) ->
  check triggered name weight metrics sector_metrics state = state.
Proof.
  intros Hidle. unfold check.
  destruct (dict_get metrics name) as [v|]; [|reflexivity].
  destruct (dict_get sector_metrics name) as [avg|]; [|reflexivity].
  now rewrite (Hidle v avg).
Qed.

Lemma idle_cycle self instrument price :
  current_price_of instrument = Some price ->
  (forall triggered name v avg,
      triggered = below \/ triggered = above ->
      dict_get (get_valuation_metrics self instrument) name = Some v ->
      dict_get match sector self instrument with
               | Some s => get_sector_average_metrics self s
               | None => []
               end name = Some avg ->
      triggered v avg = false) ->
  generate_signals self instrument = [].
Proof.
  intros Hprice Hidle. unfold generate_signals. rewrite Hprice.
  unfold undervaluation, overvaluation.
  rewrite !check_idle by (intros; eapply Hidle; eauto).
  reflexivity.
Qed.

(** X4. A valuation signal needs peers: the strategy returns nothing for
    an instrument without sector, for one without financial metrics, and
    for one that is the only instrument of its sector when none of its
    latest values is negative, since the sector average it is compared with
    is then its own value. *)
Theorem valuation_needs_peers :
  forall self instrument,
    sector self instrument = None \/
    get_valuation_metrics self instrument = [] \/
    (exists s,
        sector self instrument = Some s /\
        in_sector self s = [instrument] /\
        forall k v,
          dict_get (get_valuation_metrics self instrument) k = Some v ->
          0 <= v) ->
    generate_signals self instrument = [].
Proof.
  intros self instrument Hcase.
  destruct (current_price_of instrument) as [price|] eqn:Hprice;
    [|unfold generate_signals; now rewrite Hprice].
  apply (idle_cycle self instrument price Hprice).
  intros triggered name v avg Ht Hv Havg.
  destruct Hcase as [Hnone | [Hempty | (s & Hs & Halone & Hpos)]].
  - rewrite Hnone in Havg. discriminate.
  - rewrite Hempty in Hv. discriminate.
  - rewrite Hs, sector_average_get, Halone in Havg.
    unfold values_of in Havg. simpl in Havg. rewrite Hv in Havg.
    simpl in Havg. injection Havg as <-.
    specialize (Hpos name v Hv).
    assert (Py.sum [v] / Py.len [v] == v) as Hmean.
    { unfold Py.sum, Py.len. simpl. field. }
    destruct Ht as [-> | ->]; unfold below, above;
      apply ltb_false; rewrite Hmean; lra.
Qed.

End ValuationProps.

Module AnalystProps.
Import Market AnalystRatingStrategy PyFacts SortFacts.










Ltac constant_divisions :=
  unfold Qdiv in *;
  change (/ 2) with (1 # 2) in *.


End AnalystProps.

Module FundamentalChecks.
Import Market FundamentalExamples.

Lemma latest_metric_wins_witness :
  exists m,
    In m (ValuationStrategy.financial_metrics screen) /\
    ValuationStrategy.value m = 10 /\
    forall m',
      In m' (ValuationStrategy.financial_metrics screen) ->
      ValuationStrategy.fm_instrument_id m' = 3%Z ->
      ValuationStrategy.metric_type m' = "pe_ratio"%string ->
      (ValuationStrategy.date m' <= ValuationStrategy.date m)%Z.
Proof.
  destruct (ValuationProps.latest_metric_wins screen nvda "pe_ratio")
    as [_ H].
  change (ValuationStrategy.dict_get
            (ValuationStrategy.get_valuation_metrics screen nvda) "pe_ratio")
    with (Some 10) in H.
  destruct H as (m & Hin & _ & _ & Hv & Hmax).
  exists m. split; [exact Hin|]. split; [exact Hv|]. exact Hmax.
Defined.



Lemma valuation_needs_peers_witness :
  ValuationStrategy.in_sector alone ValuationStrategy.TECHNOLOGY = [nvda] /\
  ValuationStrategy.generate_signals alone nvda = [].
Proof.
  split; [reflexivity|].
  apply ValuationProps.valuation_needs_peers. right. right.
  exists ValuationStrategy.TECHNOLOGY.
  split; [reflexivity|]. split; [reflexivity|].
  intros k v.
  assert (ValuationStrategy.get_valuation_metrics alone nvda
          = [("pe_ratio"%string, 10)]) as -> by reflexivity.
  rewrite ValuationProps.get_cons.
  destruct (String.eqb "pe_ratio" k); [|discriminate].
  intros Hv. injection Hv as <-. vm_compute. discriminate.
Defined.



End FundamentalChecks.
